(** * Gesture payload builders of [wda/w3c_actions.py]

    A shallow embedding of the W3C action-set builders ([FingerMovement],
    [FingerAction], [W3CActions]) and of the legacy touch-action builders
    ([TouchMovement], [TouchPress], [TouchLongPress], [TouchTap],
    [TouchActions]), followed by the properties of the payloads they build.

    Conventions of the embedding:
    - a Python [dict] with string keys is a [gmap string value];
    - numbers are read in two ways.  In the builders of the first part a
      Python number ([int] or [float]) is an exact rational: arguments are
      stored as they are given and every arithmetic result is put in lowest
      terms, so that equal results are equal terms.  That reading is exact
      wherever no rounding occurs (constants such as [0.1 * 1000], stored
      arguments) and is the one a property about exact arithmetic asks for.
      The interpolation of the legacy [swipe] divides, takes a square root
      and truncates, so module [Py] reads it again with Python's own numbers:
      unbounded [int]s and binary64 [float]s, with the exceptions their
      arithmetic raises;
    - a character of a Python string is an [ascii] byte;
    - a builder object is a record holding its private [__data]; a method
      takes [self] first and returns the updated object, as the Python
      methods return [self];
    - [list.append] of a dict, and the ["actions"] entry made by
      [inject_touch_actions], store a reference in Python; no method of
      these classes changes a dict or a list it has handed over, and the
      properties below are about sequences of these methods, so the
      embedding stores values. *)

From Stdlib Require Import Floats.
From Stdlib Require Import QArith Qround Qreduction ZArith Lia Ascii String.
From Stdlib Require Import Reals Qreals Lra.
From stdpp Require Import gmap strings list fin_maps pretty.

Close Scope Q_scope.
#[local] Set Warnings "-register-all".

(** ** Exceptions *)

Inductive exn := ZeroDivisionError | OverflowError | ValueError.

Inductive result (A : Type) :=
| Ok (a : A)
| Raise (e : exn).
Arguments Ok {A} a.
Arguments Raise {A} e.

#[export] Instance result_ret : MRet result := fun A a => Ok a.
#[export] Instance result_bind : MBind result := fun A B f r =>
  match r with
  | Ok a => f a
  | Raise e => Raise e
  end.

(** ** Numbers *)

Module Num.

(** [a + b], [a - b], [a * b] on Python numbers. *)
Definition add (a b : Q) : Q := Qred (a + b)%Q.
Definition sub (a b : Q) : Q := Qred (a - b)%Q.
Definition mul (a b : Q) : Q := Qred (a * b)%Q.

(** [pow(a, 2)]. *)
Definition pow2 (a : Q) : Q := Qred (a * a)%Q.

(** [a < b]. *)
Definition ltb (a b : Q) : bool := negb (Qle_bool b a).

(** An [int] used as a number. *)
Definition of_int (n : Z) : Q := inject_Z n.

(** [a / b] (true division): raises when [b] is zero. *)
Definition truediv (a b : Q) : result Q :=
  if Qeq_bool b 0 then Raise ZeroDivisionError else Ok (Qred (a / b)%Q).

(** [sqrt(r)] of a rational is irrational in general: the embedding keeps
    the radicand. *)
Inductive root := Sqrt (radicand : Q).

Definition sqrt (r : Q) : root := Sqrt r.

(** [int(distance / delta)] for [distance = sqrt(r)]: the division raises
    when [delta] is zero; [int] truncates the real quotient towards zero.
    As [|sqrt(r) / delta| = sqrt(r / delta^2)] and the integer part of the
    square root of [q >= 0] is the integer square root of the integer part
    of [q], the truncation is computed on integers ([int_truediv_root_pos]
    and [int_truediv_root_neg] below state that it is the truncated
    quotient). *)
Definition int_truediv_root (distance : root) (delta : Q) : result Z :=
  if Qeq_bool delta 0 then Raise ZeroDivisionError
  else
    let 'Sqrt r := distance in
    Ok (Z.sgn (Qnum delta) * Z.sqrt (Qfloor (r / (delta * delta))%Q))%Z.

End Num.

(** ** JSON-like values held by the builders *)

(** [VNum q] is an exact number, [VFloat f] a binary64 float; [VGen l] is a
    generator object that has not been started and would yield the items of
    [l]. *)
Inductive value :=
| VStr (s : string)
| VNum (q : Q)
| VDict (d : gmap string value)
| VList (l : list value)
| VGen (l : list value)
| VFloat (f : float).

(** ** W3C actions *)

Module FingerMovement.

Record t := Build { data : gmap string value }.

Definition init : t := {| data := {[ "type" := VStr "pointerMove" ]} |}.

Definition with_xy (self : t) (x y : Q) : t :=
  let d := <["x" := VNum x]> (data self) in
  let d := <["y" := VNum y]> d in
  {| data := d |}.

Definition with_origin (self : t) (element_uid : option string) : t :=
  match element_uid with
  | Some uid => {| data := <["origin" := VStr uid]> (data self) |}
  | None => self
  end.

Definition with_duration (self : t) (second : option Q) : t :=
  match second with
  | Some s => {| data := <["duration" := VNum (Num.mul s 1000)]> (data self) |}
  | None => self
  end.

End FingerMovement.

Module FingerAction.

Record t := Build { data : list value }.

Definition init : t := {| data := [] |}.

Definition append (self : t) (v : value) : t := {| data := data self ++ [v] |}.

Definition move (self : t) (movement : FingerMovement.t) : t :=
  append self (VDict (FingerMovement.data movement)).

Definition down (self : t) : t :=
  append self (VDict {[ "type" := VStr "pointerDown" ]}).

Definition up (self : t) : t :=
  append self (VDict {[ "type" := VStr "pointerUp" ]}).

Definition default_second : Q := 1 # 2.

Definition pause (self : t) (second : Q) : t :=
  let second := if Num.ltb second 0 then (1 # 2)%Q else second in
  append self (VDict {[ "type" := VStr "pause";
                        "duration" := VNum (Num.mul second 1000) ]}).

End FingerAction.

Module W3CActions.

Record t := Build { data : list value }.

Definition init : t := {| data := [] |}.

Definition append (self : t) (v : value) : t := {| data := data self ++ [v] |}.

(** The [actions] entry is a list comprehension over [text] whose element
    expression is itself a parenthesised generator expression: one
    generator object per character. *)
Definition send_keys (self : t) (text : string) : t :=
  let keyboard : gmap string value :=
    {[ "type" := VStr "key";
       "id" := VStr ("keyboard" +:+ pretty (length (data self)));
       "actions" :=
         VList (map (fun v : ascii =>
                       VGen [ VDict {[ "type" := VStr "keyDown";
                                       "value" := VStr (String v EmptyString) ]};
                              VDict {[ "type" := VStr "keyUp";
                                       "value" := VStr (String v EmptyString) ]} ])
                    (String.list_ascii_of_string text)) ]} in
  append self (VDict keyboard).

Definition inject_touch_actions (self : t) (actions : list FingerAction.t) : t :=
  foldl (fun self action =>
           let pointer : gmap string value :=
             {[ "type" := VStr "pointer";
                "id" := VStr ("finger" +:+ pretty (length (data self)));
                "parameters" := VDict {[ "pointerType" := VStr "touch" ]};
                "actions" := VList (FingerAction.data action) ]} in
           append self (VDict pointer))
        self actions.

Definition tap_default_second : Q := 1 # 10.

Definition tap (self : t) (x y : Q) (element_uid : option string) (second : Q) : t :=
  let movement :=
    FingerMovement.with_origin (FingerMovement.with_xy FingerMovement.init x y)
                               element_uid in
  let action :=
    FingerAction.up
      (FingerAction.pause
         (FingerAction.down (FingerAction.move FingerAction.init movement))
         second) in
  inject_touch_actions self [action].

Definition press_default_second : Q := 2.

Definition press (self : t) (x y : Q) (element_uid : option string) (second : Q) : t :=
  let movement :=
    FingerMovement.with_origin (FingerMovement.with_xy FingerMovement.init x y)
                               element_uid in
  let action :=
    FingerAction.up
      (FingerAction.pause
         (FingerAction.down (FingerAction.move FingerAction.init movement))
         second) in
  inject_touch_actions self [action].

Definition swipe_default_press_seconds : Q := 1 # 4.
Definition swipe_default_hold_seconds : Q := 1 # 4.

Definition swipe (self : t) (from_x from_y to_x to_y : Q)
    (element_uid : option string)
    (press_seconds : Q) (swipe_seconds : option Q) (hold_seconds : Q) : t :=
  let movement_from :=
    FingerMovement.with_origin
      (FingerMovement.with_xy FingerMovement.init from_x from_y) element_uid in
  let movement_to :=
    FingerMovement.with_duration
      (FingerMovement.with_origin
         (FingerMovement.with_xy FingerMovement.init to_x to_y) element_uid)
      swipe_seconds in
  let action :=
    FingerAction.up
      (FingerAction.pause
         (FingerAction.move
            (FingerAction.move
               (FingerAction.pause
                  (FingerAction.down
                     (FingerAction.move FingerAction.init movement_from))
                  press_seconds)
               movement_from)
            movement_to)
         hold_seconds) in
  inject_touch_actions self [action].

End W3CActions.

(** ** Legacy touch actions *)

(** [data["options"][k] = v] on a dict whose ["options"] entry is a dict, as
    every legacy primitive builder initialises it. *)
Definition set_option (data : gmap string value) (k : string) (v : value)
    : gmap string value :=
  match data !! "options" with
  | Some (VDict options) => <["options" := VDict (<[k := v]> options)]> data
  | _ => data
  end.

Module TouchMovement.

Record t := Build { data : gmap string value }.

Definition init : t :=
  {| data := {[ "action" := VStr "moveTo"; "options" := VDict ∅ ]} |}.

Definition with_xy (self : t) (x y : Q) : t :=
  let d := set_option (data self) "x" (VNum x) in
  let d := set_option d "y" (VNum y) in
  {| data := d |}.

Definition with_origin (self : t) (element_uid : option string) : t :=
  match element_uid with
  | Some uid => {| data := set_option (data self) "element" (VStr uid) |}
  | None => self
  end.

End TouchMovement.

Module TouchPress.

Record t := Build { data : gmap string value }.

Definition init : t :=
  {| data := {[ "action" := VStr "press"; "options" := VDict ∅ ]} |}.

Definition with_xy (self : t) (x y : Q) : t :=
  let d := set_option (data self) "x" (VNum x) in
  let d := set_option d "y" (VNum y) in
  {| data := d |}.

Definition with_origin (self : t) (element_uid : option string) : t :=
  match element_uid with
  | Some uid => {| data := set_option (data self) "element" (VStr uid) |}
  | None => self
  end.

Definition with_pressure (self : t) (pressure : Q) : t :=
  {| data := set_option (data self) "pressure" (VNum pressure) |}.

End TouchPress.

Module TouchLongPress.

Record t := Build { data : gmap string value }.

Definition init : t :=
  {| data := {[ "action" := VStr "longPress"; "options" := VDict ∅ ]} |}.

Definition with_xy (self : t) (x y : Q) : t :=
  let d := set_option (data self) "x" (VNum x) in
  let d := set_option d "y" (VNum y) in
  {| data := d |}.

Definition with_origin (self : t) (element_uid : option string) : t :=
  match element_uid with
  | Some uid => {| data := set_option (data self) "element" (VStr uid) |}
  | None => self
  end.

End TouchLongPress.

Module TouchTap.

Record t := Build { data : gmap string value }.

Definition init : t :=
  {| data := {[ "action" := VStr "tap"; "options" := VDict ∅ ]} |}.

Definition with_xy (self : t) (x y : Q) : t :=
  let d := set_option (data self) "x" (VNum x) in
  let d := set_option d "y" (VNum y) in
  {| data := d |}.

Definition with_origin (self : t) (element_uid : option string) : t :=
  match element_uid with
  | Some uid => {| data := set_option (data self) "element" (VStr uid) |}
  | None => self
  end.

Definition with_count (self : t) (count : Z) : t :=
  {| data := set_option (data self) "count" (VNum (Num.of_int count)) |}.

End TouchTap.

Module TouchActions.

Record t := Build { data : list value }.

Definition init : t := {| data := [] |}.

Definition append (self : t) (v : value) : t := {| data := data self ++ [v] |}.

Definition move (self : t) (movement : TouchMovement.t) : t :=
  append self (VDict (TouchMovement.data movement)).

Definition press (self : t) (press : TouchPress.t) : t :=
  append self (VDict (TouchPress.data press)).

Definition long_press (self : t) (long_press : TouchLongPress.t) : t :=
  append self (VDict (TouchLongPress.data long_press)).

Definition tap (self : t) (tap : TouchTap.t) : t :=
  append self (VDict (TouchTap.data tap)).

Definition default_second : Q := 1 # 2.

Definition pause (self : t) (second : Q) : t :=
  let second := if Num.ltb second 0 then (1 # 2)%Q else second in
  append self (VDict {[ "action" := VStr "wait";
                        "options" := VDict {[ "ms" := VNum (Num.mul second 1000) ]} ]}).

Definition up (self : t) : t :=
  append self (VDict {[ "action" := VStr "release" ]}).

Definition cancel (self : t) : t :=
  append self (VDict {[ "action" := VStr "cancel" ]}).

Definition swipe_default_press_seconds : Q := 1 # 4.
Definition swipe_default_delta : Q := 10.
Definition swipe_default_hold_seconds : Q := 1 # 4.
Definition swipe_default_up : bool := true.

(** [distance = sqrt(pow(to_y - from_y, 2) + pow(to_x - from_x, 2))] and
    [steps = int(distance / delta)], the first two statements of the
    interpolated branch of [swipe]. *)
Definition swipe_steps (from_x from_y to_x to_y delta : Q) : result Z :=
  let distance :=
    Num.sqrt (Num.add (Num.pow2 (Num.sub to_y from_y))
                      (Num.pow2 (Num.sub to_x from_x))) in
  Num.int_truediv_root distance delta.

(** [range(1, steps + 1)]: empty when [steps <= 0]. *)
Definition swipe_range (steps : Z) : list Z := seqZ 1 steps.

(** The boolean parameter [up] of the source is [do_up] here, the method
    [up] keeping its name.  Every statement that can raise comes before
    the first append, so that when [swipe] raises the object is as it was
    before the call. *)
Definition swipe (self : t) (from_x from_y to_x to_y : Q)
    (element_uid : option string)
    (press_seconds : Q) (swipe_seconds : option Q)
    (delta : Q) (hold_seconds : Q) (do_up : bool) : result t :=
  match swipe_seconds with
  | None =>
      let self :=
        pause (press self (TouchPress.with_origin
                             (TouchPress.with_xy TouchPress.init from_x from_y)
                             element_uid))
              press_seconds in
      let self :=
        pause (move self (TouchMovement.with_origin
                            (TouchMovement.with_xy TouchMovement.init to_x to_y)
                            element_uid))
              hold_seconds in
      let self := if do_up then up self else self in
      Ok self
  | Some swipe_seconds =>
      steps ← swipe_steps from_x from_y to_x to_y delta;
      dx ← Num.truediv (Num.sub to_x from_x) (Num.of_int steps);
      dy ← Num.truediv (Num.sub to_y from_y) (Num.of_int steps);
      interval ← Num.truediv swipe_seconds (Num.of_int steps);
      let self :=
        pause (press self (TouchPress.with_origin
                             (TouchPress.with_xy TouchPress.init from_x from_y)
                             element_uid))
              press_seconds in
      let self :=
        foldl (fun self i =>
                 pause (move self
                          (TouchMovement.with_origin
                             (TouchMovement.with_xy TouchMovement.init
                                (Num.add from_x (Num.mul (Num.of_int i) dx))
                                (Num.add from_y (Num.mul (Num.of_int i) dy)))
                             element_uid))
                       interval)
              self (swipe_range steps) in
      let self :=
        pause (move self
                 (TouchMovement.with_origin
                    (TouchMovement.with_xy TouchMovement.init
                       (Num.add from_x (Num.mul (Num.of_int steps) dx))
                       (Num.add from_y (Num.mul (Num.of_int steps) dy)))
                    element_uid))
              hold_seconds in
      let self := if do_up then up self else self in
      Ok self
  end.

End TouchActions.

(** ** Payload shapes

    The records of the two wire formats, written as JSON objects whose
    optional members are left out when absent.  The properties below compare
    what the builders accumulate with these shapes. *)

Definition field (v : value) (k : string) : option value :=
  match v with
  | VDict d => d !! k
  | _ => None
  end.

Module Wire.

Definition obj (members : list (string * option value)) : value :=
  VDict (list_to_map (omap (fun m => pair m.1 <$> m.2) members)).

Definition pointerMove (x y : Q) (origin : option string) (duration : option Q)
    : value :=
  obj [ ("type", Some (VStr "pointerMove"));
        ("x", Some (VNum x));
        ("y", Some (VNum y));
        ("origin", VStr <$> origin);
        ("duration", VNum <$> duration) ].

Definition pointerDown : value := obj [ ("type", Some (VStr "pointerDown")) ].

Definition pointerUp : value := obj [ ("type", Some (VStr "pointerUp")) ].

Definition pause (duration : Q) : value :=
  obj [ ("type", Some (VStr "pause")); ("duration", Some (VNum duration)) ].

Definition pointer (id : string) (actions : list value) : value :=
  obj [ ("type", Some (VStr "pointer"));
        ("id", Some (VStr id));
        ("parameters", Some (obj [ ("pointerType", Some (VStr "touch")) ]));
        ("actions", Some (VList actions)) ].

Definition keyDown (c : ascii) : value :=
  obj [ ("type", Some (VStr "keyDown")); ("value", Some (VStr (String c EmptyString))) ].

Definition keyUp (c : ascii) : value :=
  obj [ ("type", Some (VStr "keyUp")); ("value", Some (VStr (String c EmptyString))) ].

Definition key (id : string) (actions : list value) : value :=
  obj [ ("type", Some (VStr "key"));
        ("id", Some (VStr id));
        ("actions", Some (VList actions)) ].

Definition touch (action : string) (x y : Q) (element : option string) : value :=
  obj [ ("action", Some (VStr action));
        ("options", Some (obj [ ("x", Some (VNum x));
                                ("y", Some (VNum y));
                                ("element", VStr <$> element) ])) ].

Definition press := touch "press".
Definition moveTo := touch "moveTo".

Definition wait (ms : Q) : value :=
  obj [ ("action", Some (VStr "wait"));
        ("options", Some (obj [ ("ms", Some (VNum ms)) ])) ].

Definition release : value := obj [ ("action", Some (VStr "release")) ].

Definition cancel : value := obj [ ("action", Some (VStr "cancel")) ].

End Wire.

(** The duration in milliseconds stored by [pause(second)]. *)
Definition pause_ms (second : Q) : Q :=
  if Num.ltb second 0 then 500 else Num.mul second 1000.

(** The identifier carried by a timeline of an action set. *)
Definition timeline_id (timeline : value) : option string :=
  match field timeline "id" with
  | Some (VStr id) => Some id
  | _ => None
  end.

(** ** Sequences of calls on one builder *)

Inductive finger_call :=
| FMove (movement : FingerMovement.t)
| FDown
| FUp
| FPause (second : Q).

Definition finger_run (self : FingerAction.t) (c : finger_call) : FingerAction.t :=
  match c with
  | FMove movement => FingerAction.move self movement
  | FDown => FingerAction.down self
  | FUp => FingerAction.up self
  | FPause second => FingerAction.pause self second
  end.

(** The primitive a call stands for. *)
Definition finger_primitive (c : finger_call) : value :=
  match c with
  | FMove movement => VDict (FingerMovement.data movement)
  | FDown => Wire.pointerDown
  | FUp => Wire.pointerUp
  | FPause second => Wire.pause (pause_ms second)
  end.

Inductive touch_call :=
| TMove (movement : TouchMovement.t)
| TPress (press : TouchPress.t)
| TLongPress (long_press : TouchLongPress.t)
| TTap (tap : TouchTap.t)
| TPause (second : Q)
| TUp
| TCancel.

Definition touch_run (self : TouchActions.t) (c : touch_call) : TouchActions.t :=
  match c with
  | TMove movement => TouchActions.move self movement
  | TPress press => TouchActions.press self press
  | TLongPress long_press => TouchActions.long_press self long_press
  | TTap tap => TouchActions.tap self tap
  | TPause second => TouchActions.pause self second
  | TUp => TouchActions.up self
  | TCancel => TouchActions.cancel self
  end.

Definition touch_primitive (c : touch_call) : value :=
  match c with
  | TMove movement => VDict (TouchMovement.data movement)
  | TPress press => VDict (TouchPress.data press)
  | TLongPress long_press => VDict (TouchLongPress.data long_press)
  | TTap tap => VDict (TouchTap.data tap)
  | TPause second => Wire.wait (pause_ms second)
  | TUp => Wire.release
  | TCancel => Wire.cancel
  end.

Inductive w3c_call :=
| SendKeys (text : string)
| InjectTouchActions (actions : list FingerAction.t).

Definition w3c_run (self : W3CActions.t) (c : w3c_call) : W3CActions.t :=
  match c with
  | SendKeys text => W3CActions.send_keys self text
  | InjectTouchActions actions => W3CActions.inject_touch_actions self actions
  end.

(** ** Sequences of calls on an action set, gesture helpers included *)

Inductive w3c_gesture_call :=
| GSendKeys (text : string)
| GInject (actions : list FingerAction.t)
| GTap (x y : Q) (element_uid : option string) (second : Q)
| GPress (x y : Q) (element_uid : option string) (second : Q)
| GSwipe (from_x from_y to_x to_y : Q) (element_uid : option string)
         (press_seconds : Q) (swipe_seconds : option Q) (hold_seconds : Q).

Definition w3c_gesture_run (self : W3CActions.t) (c : w3c_gesture_call)
    : W3CActions.t :=
  match c with
  | GSendKeys text => W3CActions.send_keys self text
  | GInject actions => W3CActions.inject_touch_actions self actions
  | GTap x y element_uid second => W3CActions.tap self x y element_uid second
  | GPress x y element_uid second => W3CActions.press self x y element_uid second
  | GSwipe from_x from_y to_x to_y element_uid press_seconds swipe_seconds
           hold_seconds =>
      W3CActions.swipe self from_x from_y to_x to_y element_uid
        press_seconds swipe_seconds hold_seconds
  end.

(** The number of timelines a call adds. *)
Definition w3c_gesture_count (c : w3c_gesture_call) : nat :=
  match c with
  | GInject actions => length actions
  | _ => 1
  end.

(** The record of a legacy primitive builder: an ["action"] discriminant and
    an ["options"] dict, and nothing else. *)
Definition legacy_record (action : string) (d : gmap string value) : Prop :=
  d !! "action" = Some (VStr action) /\
  (exists options, d !! "options" = Some (VDict options)) /\
  dom d = {[ "action"; "options" ]}.

(** The options of a legacy primitive record. *)
Definition legacy_options (d : gmap string value) : option (gmap string value) :=
  match d !! "options" with
  | Some (VDict options) => Some options
  | _ => None
  end.

(** Every timeline of the list carries an identifier made of a kind prefix
    and of its position, which is the length the set had when the timeline
    was appended. *)
Definition ids_by_position (timelines : list value) : Prop :=
  forall i v,
    timelines !! i = Some v ->
    timeline_id v = Some ("keyboard" +:+ pretty i) \/
    timeline_id v = Some ("finger" +:+ pretty i).

(** * The legacy swipe on Python's numbers

    [TouchActions] above reads the arithmetic of [swipe] over exact
    rationals.  [Py.TouchActions] reads it as CPython computes it: a number
    is an [int] of any size or a [float], which is an IEEE 754 binary64;
    [int] arithmetic is exact, mixed arithmetic first converts the [int] to
    the nearest [float] and raises [OverflowError] when that is out of
    range, and [+], [-], [*], [/] and [sqrt] on floats round to nearest,
    ties to even.  The builders of [Py] are those of the legacy model that
    [swipe] uses, with numbers of this kind. *)

Module Py.

Module Num.

Inductive num :=
| PInt (z : Z)
| PFloat (f : float).

(** The JSON value of a number. *)
Definition to_value (a : num) : value :=
  match a with
  | PInt z => VNum (inject_Z z)
  | PFloat f => VFloat f
  end.

(** The double nearest to an int, ties to even; infinite when the int is
    beyond the doubles. *)
Definition nearest_float (z : Z) : float :=
  SF2Prim (binary_normalize prec emax z 0 false).

(** The conversion of an [int] operand to a double ([PyLong_AsDouble]): it
    raises when the nearest double would be infinite, that is from
    [2^1024 - 2^970] on, the midpoint between the largest double and
    [2^1024]. *)
Definition float_of_int (z : Z) : result float :=
  if (Z.abs z <? 2 ^ 1024 - 2 ^ 970)%Z then Ok (nearest_float z)
  else Raise OverflowError.

(** [float(a)], also the conversion of an operand of mixed arithmetic. *)
Definition to_float (a : num) : result float :=
  match a with
  | PInt z => float_of_int z
  | PFloat f => Ok f
  end.

Definition binop (int_op : Z -> Z -> Z) (float_op : float -> float -> float)
    (a b : num) : result num :=
  match a, b with
  | PInt x, PInt y => Ok (PInt (int_op x y))
  | _, _ =>
      x ← to_float a;
      y ← to_float b;
      Ok (PFloat (float_op x y))
  end.

(** [a + b], [a - b], [a * b]. *)
Definition add : num -> num -> result num := binop Z.add PrimFloat.add.
Definition sub : num -> num -> result num := binop Z.sub PrimFloat.sub.
Definition mul : num -> num -> result num := binop Z.mul PrimFloat.mul.

(** [errno] after a call of the C library. *)
Inductive errno := ENone | ERANGE | EOther.

(** [pow(iv, 2)] on a float ([float_pow] with [iw = 2.0]): the special
    values are settled first, and a finite positive [iv] other than 1 goes
    to the C library's [pow], here [libm_pow], which gives a double and an
    [errno]; an infinite result is a range error, a range error on a zero
    result is dropped, and what is left of [errno] raises. *)
Definition float_pow2 (libm_pow : float -> float -> float * errno) (iv : float)
    : result float :=
  if PrimFloat.is_nan iv then Ok iv
  else if PrimFloat.is_infinity iv then Ok (PrimFloat.abs iv)
  else if (iv =? 0)%float then Ok 0%float
  else
    let iv := if (iv <? 0)%float then (- iv)%float else iv in
    if (iv =? 1)%float then Ok 1%float
    else
      let '(ix, e) := libm_pow iv 2%float in
      let e :=
        match e with
        | ENone => if PrimFloat.is_infinity ix then ERANGE else ENone
        | ERANGE => if (ix =? 0)%float then ENone else ERANGE
        | EOther => EOther
        end in
      match e with
      | ENone => Ok ix
      | ERANGE => Raise OverflowError
      | EOther => Raise ValueError
      end.

(** [pow(a, 2)]: exact on an [int]. *)
Definition pow2 (libm_pow : float -> float -> float * errno) (a : num)
    : result num :=
  match a with
  | PInt z => Ok (PInt (z ^ 2))
  | PFloat f => x ← float_pow2 libm_pow f; Ok (PFloat x)
  end.

(** [math.sqrt(a)]: a NaN result for an argument that is not a NaN is a
    domain error. *)
Definition sqrt (a : num) : result float :=
  x ← to_float a;
  let r := PrimFloat.sqrt x in
  if PrimFloat.is_nan r && negb (PrimFloat.is_nan x) then Raise ValueError
  else Ok r.

(** Whether a divisor is zero once converted: an [int] converts to [0.0]
    only when it is [0]; [0.0] and [-0.0] are both zero. *)
Definition is_zero (b : num) : bool :=
  match b with
  | PInt z => (z =? 0)%Z
  | PFloat f => (f =? 0)%float
  end.

(** [a / b] for a float [a]. *)
Definition truediv (a : float) (b : num) : result float :=
  y ← to_float b;
  if is_zero b then Raise ZeroDivisionError else Ok (a / y)%float.

(** [int(f)]: truncation towards zero. *)
Definition int_of_float (f : float) : result Z :=
  match Prim2SF f with
  | S754_nan => Raise ValueError
  | S754_infinity _ => Raise OverflowError
  | S754_zero _ => Ok 0%Z
  | S754_finite s m e =>
      let magnitude :=
        if (0 <=? e)%Z then (Z.pos m * 2 ^ e)%Z else (Z.pos m / 2 ^ (- e))%Z in
      Ok (if s then - magnitude else magnitude)%Z
  end.

(** [a < 0]. *)
Definition ltb0 (a : num) : bool :=
  match a with
  | PInt z => (z <? 0)%Z
  | PFloat f => (f <? 0)%float
  end.

(** [a * 1000]: exact on an [int]; for a float the int 1000 converts to
    the double 1000.0. *)
Definition times_1000 (a : num) : num :=
  match a with
  | PInt z => PInt (z * 1000)
  | PFloat f => PFloat (f * 1000)%float
  end.

End Num.

Module TouchMovement.

Record t := Build { data : gmap string value }.

Definition init : t :=
  {| data := {[ "action" := VStr "moveTo"; "options" := VDict ∅ ]} |}.

Definition with_xy (self : t) (x y : Num.num) : t :=
  let d := set_option (data self) "x" (Num.to_value x) in
  let d := set_option d "y" (Num.to_value y) in
  {| data := d |}.

Definition with_origin (self : t) (element_uid : option string) : t :=
  match element_uid with
  | Some uid => {| data := set_option (data self) "element" (VStr uid) |}
  | None => self
  end.

End TouchMovement.

Module TouchPress.

Record t := Build { data : gmap string value }.

Definition init : t :=
  {| data := {[ "action" := VStr "press"; "options" := VDict ∅ ]} |}.

Definition with_xy (self : t) (x y : Num.num) : t :=
  let d := set_option (data self) "x" (Num.to_value x) in
  let d := set_option d "y" (Num.to_value y) in
  {| data := d |}.

Definition with_origin (self : t) (element_uid : option string) : t :=
  match element_uid with
  | Some uid => {| data := set_option (data self) "element" (VStr uid) |}
  | None => self
  end.

End TouchPress.

Module TouchActions.

Record t := Build { data : list value }.

Definition init : t := {| data := [] |}.

Definition append (self : t) (v : value) : t := {| data := data self ++ [v] |}.

Definition move (self : t) (movement : TouchMovement.t) : t :=
  append self (VDict (TouchMovement.data movement)).

Definition press (self : t) (press : TouchPress.t) : t :=
  append self (VDict (TouchPress.data press)).

Definition pause (self : t) (second : Num.num) : t :=
  let second := if Num.ltb0 second then Num.PFloat 0.5 else second in
  append self
    (VDict {[ "action" := VStr "wait";
              "options" :=
                VDict {[ "ms" := Num.to_value (Num.times_1000 second) ]} ]}).

Definition up (self : t) : t :=
  append self (VDict {[ "action" := VStr "release" ]}).

(** How a call ends: it returns [self], or it raises and leaves the object
    as it was when the exception occurred. *)
Inductive outcome :=
| Returned (self : t)
| Raised (e : exn) (self : t).

(** [distance = sqrt(pow(to_y - from_y, 2) + pow(to_x - from_x, 2))] and
    [steps = int(distance / delta)]. *)
Definition swipe_steps (libm_pow : float -> float -> float * Num.errno)
    (from_x from_y to_x to_y delta : Num.num) : result Z :=
  span_y ← Num.sub to_y from_y;
  square_y ← Num.pow2 libm_pow span_y;
  span_x ← Num.sub to_x from_x;
  square_x ← Num.pow2 libm_pow span_x;
  sum ← Num.add square_y square_x;
  distance ← Num.sqrt sum;
  quotient ← Num.truediv distance delta;
  Num.int_of_float quotient.

(** [float(to - from) / steps]. *)
Definition swipe_increment (from to : Num.num) (steps : Z) : result float :=
  span ← Num.sub to from;
  span ← Num.to_float span;
  Num.truediv span (Num.PInt steps).

(** [(from_x + k * dx, from_y + k * dy)] for an int [k]. *)
Definition swipe_point (from_x from_y : Num.num) (k : Z) (dx dy : float)
    : result (Num.num * Num.num) :=
  kdx ← Num.mul (Num.PInt k) (Num.PFloat dx);
  x ← Num.add from_x kdx;
  kdy ← Num.mul (Num.PInt k) (Num.PFloat dy);
  y ← Num.add from_y kdy;
  Ok (x, y).

(** The [for] loop of the interpolated branch: the two coordinates are
    computed before the move is appended. *)
Fixpoint swipe_loop (self : t) (from_x from_y : Num.num) (dx dy interval : float)
    (element_uid : option string) (range : list Z) : outcome :=
  match range with
  | [] => Returned self
  | i :: range =>
      match swipe_point from_x from_y i dx dy with
      | Raise e => Raised e self
      | Ok (x, y) =>
          let self :=
            pause (move self (TouchMovement.with_origin
                                (TouchMovement.with_xy TouchMovement.init x y)
                                element_uid))
                  (Num.PFloat interval) in
          swipe_loop self from_x from_y dx dy interval element_uid range
      end
  end.

(** The boolean parameter [up] of the source is [do_up] here. *)
Definition swipe (libm_pow : float -> float -> float * Num.errno) (self : t)
    (from_x from_y to_x to_y : Num.num) (element_uid : option string)
    (press_seconds : Num.num) (swipe_seconds : option Num.num)
    (delta hold_seconds : Num.num) (do_up : bool) : outcome :=
  match swipe_seconds with
  | None =>
      let self :=
        pause (press self (TouchPress.with_origin
                             (TouchPress.with_xy TouchPress.init from_x from_y)
                             element_uid))
              press_seconds in
      let self :=
        pause (move self (TouchMovement.with_origin
                            (TouchMovement.with_xy TouchMovement.init to_x to_y)
                            element_uid))
              hold_seconds in
      Returned (if do_up then up self else self)
  | Some swipe_seconds =>
      let increments :=
        steps ← swipe_steps libm_pow from_x from_y to_x to_y delta;
        dx ← swipe_increment from_x to_x steps;
        dy ← swipe_increment from_y to_y steps;
        seconds ← Num.to_float swipe_seconds;
        interval ← Num.truediv seconds (Num.PInt steps);
        Ok (steps, dx, dy, interval) in
      match increments with
      | Raise e => Raised e self
      | Ok (steps, dx, dy, interval) =>
          let self :=
            pause (press self (TouchPress.with_origin
                                 (TouchPress.with_xy TouchPress.init from_x from_y)
                                 element_uid))
                  press_seconds in
          match swipe_loop self from_x from_y dx dy interval element_uid
                  (seqZ 1 steps) with
          | Raised e self => Raised e self
          | Returned self =>
              match swipe_point from_x from_y steps dx dy with
              | Raise e => Raised e self
              | Ok (x, y) =>
                  let self :=
                    pause (move self (TouchMovement.with_origin
                                        (TouchMovement.with_xy
                                           TouchMovement.init x y)
                                        element_uid))
                          hold_seconds in
                  Returned (if do_up then up self else self)
              end
          end
      end
  end.

End TouchActions.

(** The payload shapes with Python's numbers. *)
Module Shape.

Definition touch (action : string) (x y : Num.num) (element : option string)
    : value :=
  Wire.obj [ ("action", Some (VStr action));
             ("options", Some (Wire.obj [ ("x", Some (Num.to_value x));
                                          ("y", Some (Num.to_value y));
                                          ("element", VStr <$> element) ])) ].

Definition press := touch "press".
Definition moveTo := touch "moveTo".

Definition wait (ms : Num.num) : value :=
  Wire.obj [ ("action", Some (VStr "wait"));
             ("options", Some (Wire.obj [ ("ms", Some (Num.to_value ms)) ])) ].

End Shape.

(** The milliseconds stored by [pause(second)]. *)
Definition pause_ms (second : Num.num) : Num.num :=
  if Num.ltb0 second then Num.PFloat 500 else Num.times_1000 second.

(** A C library whose [pow(x, 2.0)] is the square rounded to nearest, with
    a range error on overflow: one platform among those the properties
    range over, used to run examples. *)
Definition rounding_pow (x y : float) : float * Num.errno :=
  let r := (x * x)%float in
  (r, if PrimFloat.is_infinity r then Num.ERANGE else Num.ENone).

End Py.

(** * Properties *)

(** ** Numbers *)

Lemma ltb_spec (a b : Q) : Num.ltb a b = true <-> (a < b)%Q.
Proof.
  unfold Num.ltb. rewrite negb_true_iff, <- not_true_iff_false, Qle_bool_iff.
  split; [apply Qnot_le_lt | apply Qlt_not_le].
Qed.

Lemma ltb_ge (a b : Q) : (b <= a)%Q -> Num.ltb a b = false.
Proof.
  intros H. unfold Num.ltb. apply negb_false_iff, Qle_bool_iff, H.
Qed.

Lemma pause_ms_stored (second : Q) :
  Num.mul (if Num.ltb second 0 then (1 # 2)%Q else second) 1000 = pause_ms second.
Proof. unfold pause_ms. destruct (Num.ltb second 0); reflexivity. Qed.

Lemma pause_ms_negative (second : Q) : (second < 0)%Q -> pause_ms second = 500%Q.
Proof. intros H. unfold pause_ms. apply ltb_spec in H. rewrite H. reflexivity. Qed.

Lemma pause_ms_nonnegative (second : Q) :
  (0 <= second)%Q -> pause_ms second = Num.mul second 1000.
Proof. intros H. unfold pause_ms. rewrite (ltb_ge _ _ H). reflexivity. Qed.

(** *** [int(sqrt(r) / delta)] is the truncated real quotient *)

Lemma isqrt_floor_bounds (q : Q) :
  (0 <= q)%Q ->
  let n := Z.sqrt (Qfloor q) in
  (0 <= n)%Z /\
  (inject_Z (n * n) <= q)%Q /\
  (q < inject_Z ((n + 1) * (n + 1)))%Q.
Proof.
  intros Hq n.
  assert (Hm : (0 <= Qfloor q)%Z).
  { change 0%Z with (Qfloor 0). apply Qfloor_resp_le, Hq. }
  pose proof (Z.sqrt_spec (Qfloor q) Hm) as [Hlo Hhi]. fold n in Hlo, Hhi.
  split; [apply Z.sqrt_nonneg |]. split.
  - apply Qle_trans with (inject_Z (Qfloor q)); [| apply Qfloor_le].
    rewrite <- Zle_Qle. exact Hlo.
  - apply Qlt_le_trans with (inject_Z (Qfloor q + 1)); [apply Qlt_floor |].
    rewrite <- Zle_Qle. lia.
Qed.

Lemma Q2R_inject_Z (k : Z) : Q2R (inject_Z k) = IZR k.
Proof. unfold Q2R, inject_Z. simpl. lra. Qed.

Lemma root_quotient_bounds (r delta : Q) :
  (0 <= r)%Q -> ~ (delta == 0)%Q ->
  let n := Z.sqrt (Qfloor (r / (delta * delta))) in
  let t := (sqrt (Q2R r) / Q2R delta)%R in
  (0 <= n)%Z /\ (IZR n * IZR n <= t * t < (IZR n + 1) * (IZR n + 1))%R.
Proof.
  intros Hr Hd n t.
  assert (Hdd : ~ (delta * delta == 0)%Q).
  { intros H. apply Qmult_integral in H. tauto. }
  assert (Hpos : (0 < delta * delta)%Q).
  { destruct delta as [[| p | p] d]; unfold Qeq in Hd; unfold Qlt; simpl in *; lia. }
  assert (Hq : (0 <= r / (delta * delta))%Q).
  { apply Qle_shift_div_l; [exact Hpos |]. rewrite Qmult_0_l. exact Hr. }
  destruct (isqrt_floor_bounds _ Hq) as (Hn & Hlo & Hhi). fold n in Hn, Hlo, Hhi.
  split; [exact Hn |].
  apply Qle_Rle in Hlo. apply Qlt_Rlt in Hhi.
  rewrite Q2R_inject_Z, mult_IZR in Hlo. rewrite Q2R_inject_Z, mult_IZR, plus_IZR in Hhi.
  rewrite (Q2R_div _ _ Hdd), Q2R_mult in Hlo, Hhi.
  assert (HdR : Q2R delta <> 0%R).
  { intros H. apply Hd. apply eqR_Qeq. rewrite H. unfold Q2R. simpl. lra. }
  assert (Hs : (sqrt (Q2R r) * sqrt (Q2R r))%R = Q2R r).
  { apply sqrt_sqrt. replace 0%R with (Q2R 0) by (unfold Q2R; simpl; lra).
    apply Qle_Rle, Hr. }
  assert (Ht : (t * t)%R = (Q2R r / (Q2R delta * Q2R delta))%R).
  { subst t. rewrite <- Hs at 3. field. exact HdR. }
  rewrite Ht. split; assumption.
Qed.

(** For [delta > 0] the result is the floor of the (non-negative) quotient. *)
Lemma int_truediv_root_pos (r delta : Q) :
  (0 <= r)%Q -> (0 < delta)%Q ->
  exists n,
    Num.int_truediv_root (Num.sqrt r) delta = Ok n /\
    (0 <= n)%Z /\
    (IZR n <= sqrt (Q2R r) / Q2R delta < IZR n + 1)%R.
Proof.
  intros Hr Hd.
  assert (Hne : ~ (delta == 0)%Q) by (intros H; rewrite H in Hd; discriminate Hd).
  destruct (root_quotient_bounds r delta Hr Hne) as (Hn & Hlo & Hhi).
  set (n := Z.sqrt (Qfloor (r / (delta * delta)))) in *.
  set (t := (sqrt (Q2R r) / Q2R delta)%R) in *.
  exists n. split; [| split; [exact Hn |]].
  - unfold Num.int_truediv_root, Num.sqrt.
    destruct (Qeq_bool delta 0) eqn:E; [apply Qeq_bool_iff in E; tauto |].
    replace (Z.sgn (Qnum delta)) with 1%Z.
    + fold n. rewrite Z.mul_1_l. reflexivity.
    + symmetry. apply Z.sgn_pos. unfold Qlt in Hd. simpl in Hd. lia.
  - assert (HdR : (0 < Q2R delta)%R).
    { replace 0%R with (Q2R 0) by (unfold Q2R; simpl; lra). apply Qlt_Rlt, Hd. }
    assert (Ht : (0 <= t)%R).
    { subst t. apply Rmult_le_pos; [apply sqrt_pos |].
      left. apply Rinv_0_lt_compat, HdR. }
    assert (HN : (0 <= IZR n)%R) by (apply IZR_le; exact Hn).
    split; nra.
Qed.

(** For [delta < 0] the quotient is not positive and the result is its
    ceiling, which is the truncation towards zero. *)
Lemma int_truediv_root_neg (r delta : Q) :
  (0 <= r)%Q -> (delta < 0)%Q ->
  exists n,
    Num.int_truediv_root (Num.sqrt r) delta = Ok n /\
    (n <= 0)%Z /\
    (IZR n - 1 < sqrt (Q2R r) / Q2R delta <= IZR n)%R.
Proof.
  intros Hr Hd.
  assert (Hne : ~ (delta == 0)%Q) by (intros H; rewrite H in Hd; discriminate Hd).
  destruct (root_quotient_bounds r delta Hr Hne) as (Hn & Hlo & Hhi).
  set (n := Z.sqrt (Qfloor (r / (delta * delta)))) in *.
  set (t := (sqrt (Q2R r) / Q2R delta)%R) in *.
  exists (- n)%Z. split; [| split; [lia |]].
  - unfold Num.int_truediv_root, Num.sqrt.
    destruct (Qeq_bool delta 0) eqn:E; [apply Qeq_bool_iff in E; tauto |].
    replace (Z.sgn (Qnum delta)) with (-1)%Z.
    + fold n. replace (-1 * n)%Z with (- n)%Z by lia. reflexivity.
    + symmetry. apply Z.sgn_neg. unfold Qlt in Hd. simpl in Hd. lia.
  - assert (HdR : (Q2R delta < 0)%R).
    { replace 0%R with (Q2R 0) by (unfold Q2R; simpl; lra). apply Qlt_Rlt, Hd. }
    assert (Ht : (t <= 0)%R).
    { subst t. unfold Rdiv.
      assert (H1 : (0 <= sqrt (Q2R r))%R) by apply sqrt_pos.
      assert (H2 : (/ Q2R delta < 0)%R) by (apply Rinv_lt_0_compat, HdR).
      nra. }
    assert (HN : (0 <= IZR n)%R) by (apply IZR_le; exact Hn).
    rewrite opp_IZR. split; nra.
Qed.

Lemma int_truediv_root_zero (distance : Num.root) :
  Num.int_truediv_root distance 0 = Raise ZeroDivisionError.
Proof. reflexivity. Qed.

Lemma swipe_radicand (from_x from_y to_x to_y : Q) :
  let r := Num.add (Num.pow2 (Num.sub to_y from_y)) (Num.pow2 (Num.sub to_x from_x)) in
  (0 <= r)%Q /\
  Q2R r = ((Q2R to_y - Q2R from_y) ^ 2 + (Q2R to_x - Q2R from_x) ^ 2)%R.
Proof.
  intros r.
  assert (Hr : (r == (to_y - from_y) * (to_y - from_y) +
                     (to_x - from_x) * (to_x - from_x))%Q).
  { subst r. unfold Num.add, Num.pow2, Num.sub. rewrite !Qred_correct. reflexivity. }
  split.
  - rewrite Hr.
    assert (Hsq : forall a : Q, (0 <= a * a)%Q).
    { intros [[| p | p] d]; unfold Qle; simpl; lia. }
    pose proof (Hsq (to_y - from_y)%Q). pose proof (Hsq (to_x - from_x)%Q).
    apply Qle_trans with (0 + 0)%Q; [apply Qle_refl |].
    apply Qplus_le_compat; assumption.
  - rewrite (Qeq_eqR _ _ Hr), Q2R_plus, !Q2R_mult, !Q2R_minus. ring.
Qed.

(** The step count of the interpolated branch, for a positive [delta], is
    [floor(sqrt((to_y - from_y)^2 + (to_x - from_x)^2) / delta)] over the
    reals. *)
Lemma swipe_steps_is_floor (from_x from_y to_x to_y delta : Q) :
  (0 < delta)%Q ->
  exists steps,
    TouchActions.swipe_steps from_x from_y to_x to_y delta = Ok steps /\
    (0 <= steps)%Z /\
    (IZR steps <=
       sqrt ((Q2R to_y - Q2R from_y) ^ 2 + (Q2R to_x - Q2R from_x) ^ 2) / Q2R delta
       < IZR steps + 1)%R.
Proof.
  intros Hd. destruct (swipe_radicand from_x from_y to_x to_y) as [Hr HrR].
  destruct (int_truediv_root_pos _ delta Hr Hd) as (n & Hn & Hn0 & Hbounds).
  exists n. rewrite HrR in Hbounds. repeat split; tauto.
Qed.


(** ** What the payload shapes contain *)

Lemma pointerMove_fields (x y : Q) (origin : option string) (duration : option Q) :
  let m := Wire.pointerMove x y origin duration in
  field m "type" = Some (VStr "pointerMove") /\
  field m "x" = Some (VNum x) /\
  field m "y" = Some (VNum y) /\
  field m "origin" = VStr <$> origin /\
  field m "duration" = VNum <$> duration.
Proof. destruct origin, duration; repeat split; reflexivity. Qed.

Lemma pause_fields (duration : Q) :
  field (Wire.pause duration) "type" = Some (VStr "pause") /\
  field (Wire.pause duration) "duration" = Some (VNum duration).
Proof. split; reflexivity. Qed.

Lemma wait_fields (ms : Q) :
  field (Wire.wait ms) "action" = Some (VStr "wait") /\
  field (Wire.wait ms) "options" = Some (VDict {[ "ms" := VNum ms ]}).
Proof. split; reflexivity. Qed.

Lemma touch_fields (action : string) (x y : Q) (element : option string) :
  let p := Wire.touch action x y element in
  field p "action" = Some (VStr action) /\
  exists options,
    field p "options" = Some options /\
    field options "x" = Some (VNum x) /\
    field options "y" = Some (VNum y) /\
    field options "element" = VStr <$> element.
Proof.
  split; [reflexivity |].
  eexists. split; [reflexivity |]. destruct element; repeat split; reflexivity.
Qed.

(** ** The single-step builders *)

Lemma finger_pause_appends (self : FingerAction.t) (second : Q) :
  FingerAction.data (FingerAction.pause self second) =
  FingerAction.data self ++ [Wire.pause (pause_ms second)].
Proof.
  unfold FingerAction.pause. rewrite pause_ms_stored. reflexivity.
Qed.

Lemma touch_pause_appends (self : TouchActions.t) (second : Q) :
  TouchActions.data (TouchActions.pause self second) =
  TouchActions.data self ++ [Wire.wait (pause_ms second)].
Proof.
  unfold TouchActions.pause. rewrite pause_ms_stored. reflexivity.
Qed.

Lemma finger_movement_shape (x y : Q) (element_uid : option string) (second : option Q) :
  VDict (FingerMovement.data
           (FingerMovement.with_duration
              (FingerMovement.with_origin
                 (FingerMovement.with_xy FingerMovement.init x y) element_uid)
              second)) =
  Wire.pointerMove x y element_uid ((fun s => Num.mul s 1000) <$> second).
Proof. destruct element_uid, second; reflexivity. Qed.

Lemma touch_press_shape (x y : Q) (element_uid : option string) :
  VDict (TouchPress.data
           (TouchPress.with_origin (TouchPress.with_xy TouchPress.init x y) element_uid)) =
  Wire.press x y element_uid.
Proof. destruct element_uid; reflexivity. Qed.

Lemma touch_movement_shape (x y : Q) (element_uid : option string) :
  VDict (TouchMovement.data
           (TouchMovement.with_origin
              (TouchMovement.with_xy TouchMovement.init x y) element_uid)) =
  Wire.moveTo x y element_uid.
Proof. destruct element_uid; reflexivity. Qed.

(** ** Gesture helpers of the W3C action set *)

(** C4. [tap(x, y)], with no origin and the default [second = 0.1], appends
    one pointer timeline, identified from the length of the set, whose
    actions are exactly four primitives in this order: a [pointerMove] to
    [(x, y)] with no [duration] member (and no [origin]), [pointerDown], a
    [pause] whose stored duration is [0.1 * 1000 = 100] ms, and
    [pointerUp]. *)
Theorem tap_four_primitives (self : W3CActions.t) (x y : Q) :
  let actions :=
    [ Wire.pointerMove x y None None; Wire.pointerDown; Wire.pause 100;
      Wire.pointerUp ] in
  W3CActions.data (W3CActions.tap self x y None W3CActions.tap_default_second) =
    W3CActions.data self ++
    [ Wire.pointer ("finger" +:+ pretty (length (W3CActions.data self))) actions ] /\
  length actions = 4 /\
  field (Wire.pointerMove x y None None) "x" = Some (VNum x) /\
  field (Wire.pointerMove x y None None) "y" = Some (VNum y) /\
  field (Wire.pointerMove x y None None) "duration" = None /\
  field (Wire.pause 100) "duration" =
    Some (VNum (Num.mul W3CActions.tap_default_second 1000)) /\
  Num.mul W3CActions.tap_default_second 1000 = 100%Q.
Proof. repeat split; reflexivity. Qed.

Lemma press_eq_tap (self : W3CActions.t) (x y : Q) (element_uid : option string)
    (second : Q) :
  W3CActions.press self x y element_uid second =
  W3CActions.tap self x y element_uid second.
Proof. reflexivity. Qed.

Lemma tap_shape (self : W3CActions.t) (x y : Q) (element_uid : option string)
    (second : Q) :
  W3CActions.data (W3CActions.tap self x y element_uid second) =
  W3CActions.data self ++
  [ Wire.pointer ("finger" +:+ pretty (length (W3CActions.data self)))
      [ Wire.pointerMove x y element_uid None; Wire.pointerDown;
        Wire.pause (pause_ms second); Wire.pointerUp ] ].
Proof.
  unfold W3CActions.tap, W3CActions.inject_touch_actions. cbn [foldl].
  unfold FingerAction.up at 1. unfold FingerAction.append at 1.
  rewrite finger_pause_appends.
  destruct element_uid; reflexivity.
Qed.

(** C5. For every [x], [y], optional [element_uid] and non-negative [s], and
    the same prior action set, [press(x, y, element_uid, s)] and
    [tap(x, y, element_uid, s)] leave the same action set, the appended
    pointer timeline being move, down, pause of [s * 1000] ms, up.  The
    helpers differ in their default hold only: [2.0] s, stored as 2000 ms,
    for [press], and [0.1] s, stored as 100 ms, for [tap]. *)
Theorem press_and_tap_append_identical_timelines :
  (forall (self : W3CActions.t) (x y : Q) (element_uid : option string) (s : Q),
     (0 <= s)%Q ->
     W3CActions.press self x y element_uid s = W3CActions.tap self x y element_uid s /\
     W3CActions.data (W3CActions.press self x y element_uid s) =
       W3CActions.data self ++
       [ Wire.pointer ("finger" +:+ pretty (length (W3CActions.data self)))
           [ Wire.pointerMove x y element_uid None; Wire.pointerDown;
             Wire.pause (Num.mul s 1000); Wire.pointerUp ] ]) /\
  (forall (self : W3CActions.t) (x y : Q) (element_uid : option string),
     W3CActions.data
       (W3CActions.press self x y element_uid W3CActions.press_default_second) =
       W3CActions.data self ++
       [ Wire.pointer ("finger" +:+ pretty (length (W3CActions.data self)))
           [ Wire.pointerMove x y element_uid None; Wire.pointerDown;
             Wire.pause 2000; Wire.pointerUp ] ] /\
     W3CActions.data
       (W3CActions.tap self x y element_uid W3CActions.tap_default_second) =
       W3CActions.data self ++
       [ Wire.pointer ("finger" +:+ pretty (length (W3CActions.data self)))
           [ Wire.pointerMove x y element_uid None; Wire.pointerDown;
             Wire.pause 100; Wire.pointerUp ] ]).
Proof.
  split.
  - intros self x y element_uid s Hs. split; [apply press_eq_tap |].
    rewrite press_eq_tap, tap_shape, (pause_ms_nonnegative s Hs). reflexivity.
  - intros self x y element_uid. rewrite press_eq_tap, !tap_shape. split; reflexivity.
Qed.

Lemma press_and_tap_append_identical_timelines_witness :
  (0 <= 3 # 2)%Q /\
  W3CActions.press W3CActions.init 10 20 (Some "E1"%string) (3 # 2) =
  W3CActions.tap W3CActions.init 10 20 (Some "E1"%string) (3 # 2) /\
  W3CActions.data (W3CActions.press W3CActions.init 10 20 (Some "E1"%string) (3 # 2)) =
  [ Wire.pointer "finger0"
      [ Wire.pointerMove 10 20 (Some "E1"%string) None; Wire.pointerDown;
        Wire.pause 1500; Wire.pointerUp ] ].
Proof.
  assert (H : (0 <= 3 # 2)%Q) by (unfold Qle; simpl; lia).
  split; [exact H |].
  exact (proj1 press_and_tap_append_identical_timelines
               W3CActions.init 10%Q 20%Q (Some "E1"%string) (3 # 2)%Q H).
Defined.

(** C6. [W3CActions.swipe] appends one pointer timeline of exactly seven
    primitives: move to the start, [pointerDown], pause of [press_seconds],
    the move to the start again, move to the end, pause of [hold_seconds],
    [pointerUp].  Only the move to the end can carry a [duration] member: it
    is [swipe_seconds * 1000] when [swipe_seconds] is given and absent when
    it is [None].  The two pauses store what [pause] stores for their
    argument ([pause_ms]: the seconds times 1000, a negative argument counting
    as 0.5). *)
Theorem w3c_swipe_seven_primitives (self : W3CActions.t)
    (from_x from_y to_x to_y : Q) (element_uid : option string)
    (press_seconds : Q) (swipe_seconds : option Q) (hold_seconds : Q) :
  let move_from := Wire.pointerMove from_x from_y element_uid None in
  let move_to :=
    Wire.pointerMove to_x to_y element_uid
      ((fun s => Num.mul s 1000) <$> swipe_seconds) in
  let actions :=
    [ move_from; Wire.pointerDown; Wire.pause (pause_ms press_seconds);
      move_from; move_to; Wire.pause (pause_ms hold_seconds); Wire.pointerUp ] in
  W3CActions.data
    (W3CActions.swipe self from_x from_y to_x to_y element_uid
       press_seconds swipe_seconds hold_seconds) =
    W3CActions.data self ++
    [ Wire.pointer ("finger" +:+ pretty (length (W3CActions.data self))) actions ] /\
  length actions = 7 /\
  field move_from "duration" = None /\
  field move_to "duration" =
    match swipe_seconds with
    | Some s => Some (VNum (Num.mul s 1000))
    | None => None
    end.
Proof.
  cbv zeta. split; [| split; [reflexivity | split]].
  - unfold W3CActions.swipe, W3CActions.inject_touch_actions. cbn [foldl].
    unfold FingerAction.up at 1. unfold FingerAction.append at 1.
    rewrite finger_pause_appends.
    unfold FingerAction.move at 1 2. unfold FingerAction.append at 1 2.
    rewrite finger_pause_appends.
    destruct element_uid, swipe_seconds; reflexivity.
  - destruct element_uid; reflexivity.
  - destruct element_uid, swipe_seconds; reflexivity.
Qed.

(** ** Pauses *)

(** C7. For every [s < 0], whatever its magnitude, [FingerAction.pause(s)]
    appends a [pause] primitive and [TouchActions.pause(s)] a [wait]
    primitive whose stored duration is [0.5 * 1000 = 500] ms; both are total
    functions, so neither rejects the input. *)
Theorem negative_pause_stores_500ms (s : Q) :
  (s < 0)%Q ->
  (forall self : FingerAction.t,
     FingerAction.data (FingerAction.pause self s) =
     FingerAction.data self ++ [Wire.pause 500]) /\
  (forall self : TouchActions.t,
     TouchActions.data (TouchActions.pause self s) =
     TouchActions.data self ++ [Wire.wait 500]) /\
  field (Wire.pause 500) "duration" = Some (VNum 500) /\
  field (Wire.wait 500) "options" = Some (VDict {[ "ms" := VNum 500 ]}) /\
  Num.mul (1 # 2) 1000 = 500%Q.
Proof.
  intros Hs. repeat split.
  - intros self. rewrite finger_pause_appends, (pause_ms_negative s Hs). reflexivity.
  - intros self. rewrite touch_pause_appends, (pause_ms_negative s Hs). reflexivity.
Qed.

Lemma negative_pause_stores_500ms_witness :
  (- (7 # 3) < 0)%Q /\
  FingerAction.data (FingerAction.pause FingerAction.init (- (7 # 3))) =
    [Wire.pause 500] /\
  TouchActions.data (TouchActions.pause TouchActions.init (- (7 # 3))) =
    [Wire.wait 500].
Proof.
  assert (H : (- (7 # 3) < 0)%Q) by reflexivity.
  split; [exact H |].
  split.
  - exact (proj1 (negative_pause_stores_500ms (- (7 # 3))%Q H) FingerAction.init).
  - exact (proj1 (proj2 (negative_pause_stores_500ms (- (7 # 3))%Q H)) TouchActions.init).
Defined.

(** ** Append-only sequencing *)

Lemma finger_run_appends (self : FingerAction.t) (c : finger_call) :
  FingerAction.data (finger_run self c) = FingerAction.data self ++ [finger_primitive c].
Proof.
  destruct c; try reflexivity. apply finger_pause_appends.
Qed.

Lemma touch_run_appends (self : TouchActions.t) (c : touch_call) :
  TouchActions.data (touch_run self c) = TouchActions.data self ++ [touch_primitive c].
Proof.
  destruct c; try reflexivity. apply touch_pause_appends.
Qed.

Lemma finger_calls_append (calls : list finger_call) (self : FingerAction.t) :
  FingerAction.data (foldl finger_run self calls) =
  FingerAction.data self ++ map finger_primitive calls.
Proof.
  revert self. induction calls as [| c calls IH]; intros self; simpl.
  - symmetry. apply app_nil_r.
  - rewrite IH, finger_run_appends, <- app_assoc. reflexivity.
Qed.

Lemma touch_calls_append (calls : list touch_call) (self : TouchActions.t) :
  TouchActions.data (foldl touch_run self calls) =
  TouchActions.data self ++ map touch_primitive calls.
Proof.
  revert self. induction calls as [| c calls IH]; intros self; simpl.
  - symmetry. apply app_nil_r.
  - rewrite IH, touch_run_appends, <- app_assoc. reflexivity.
Qed.

(** C9. Each append operation of [FingerAction] (move, down, up, pause) and
    of [TouchActions] (move, press, long_press, tap, pause, up, cancel) puts
    exactly one primitive at the end of the data list and leaves what was
    there untouched; hence after any sequence of calls the data list is the
    previous one followed by the primitives of the calls, in call order:
    earlier elements keep their position and value, and the [i]-th call is
    found at position [length before + i]. *)
Theorem appended_primitives_keep_call_order :
  (forall (self : FingerAction.t) (c : finger_call),
     FingerAction.data (finger_run self c) =
     FingerAction.data self ++ [finger_primitive c]) /\
  (forall (self : FingerAction.t) (calls : list finger_call),
     let after := FingerAction.data (foldl finger_run self calls) in
     after = FingerAction.data self ++ map finger_primitive calls /\
     length after = length (FingerAction.data self) + length calls /\
     (forall i v, FingerAction.data self !! i = Some v -> after !! i = Some v) /\
     (forall i c, calls !! i = Some c ->
        after !! (length (FingerAction.data self) + i) = Some (finger_primitive c))) /\
  (forall (self : TouchActions.t) (c : touch_call),
     TouchActions.data (touch_run self c) =
     TouchActions.data self ++ [touch_primitive c]) /\
  (forall (self : TouchActions.t) (calls : list touch_call),
     let after := TouchActions.data (foldl touch_run self calls) in
     after = TouchActions.data self ++ map touch_primitive calls /\
     length after = length (TouchActions.data self) + length calls /\
     (forall i v, TouchActions.data self !! i = Some v -> after !! i = Some v) /\
     (forall i c, calls !! i = Some c ->
        after !! (length (TouchActions.data self) + i) = Some (touch_primitive c))).
Proof.
  split; [exact finger_run_appends |].
  split.
  { intros self calls after. subst after. rewrite finger_calls_append.
    split; [reflexivity |]. split; [| split].
    - rewrite length_app, length_map. reflexivity.
    - intros i v Hi. apply lookup_app_l_Some. exact Hi.
    - intros i c Hi. rewrite lookup_app_r by lia.
      replace (length (FingerAction.data self) + i - length (FingerAction.data self))
        with i by lia.
      rewrite list_lookup_fmap, Hi. reflexivity. }
  split; [exact touch_run_appends |].
  intros self calls after. subst after. rewrite touch_calls_append.
  split; [reflexivity |]. split; [| split].
  - rewrite length_app, length_map. reflexivity.
  - intros i v Hi. apply lookup_app_l_Some. exact Hi.
  - intros i c Hi. rewrite lookup_app_r by lia.
    replace (length (TouchActions.data self) + i - length (TouchActions.data self))
      with i by lia.
    rewrite list_lookup_fmap, Hi. reflexivity.
Qed.

(** ** Timeline identifiers *)

Lemma send_keys_appends (self : W3CActions.t) (text : string) :
  exists timeline,
    W3CActions.data (W3CActions.send_keys self text) =
      W3CActions.data self ++ [timeline] /\
    field timeline "type" = Some (VStr "key") /\
    timeline_id timeline =
      Some ("keyboard" +:+ pretty (length (W3CActions.data self))).
Proof. eexists. repeat split. Qed.

Lemma inject_touch_actions_appends (actions : list FingerAction.t)
    (self : W3CActions.t) :
  W3CActions.data (W3CActions.inject_touch_actions self actions) =
  W3CActions.data self ++
  imap (fun k action =>
          Wire.pointer ("finger" +:+ pretty (length (W3CActions.data self) + k))
                       (FingerAction.data action))
       actions.
Proof.
  unfold W3CActions.inject_touch_actions.
  revert self. induction actions as [| a actions IH]; intros self.
  - simpl. symmetry. apply app_nil_r.
  - cbn [foldl]. rewrite IH. cbn [imap W3CActions.append W3CActions.data].
    rewrite <- app_assoc. cbn [app]. rewrite Nat.add_0_r.
    do 2 f_equal. apply imap_ext. intros k action _. cbn.
    rewrite length_app. cbn [length].
    replace (length (W3CActions.data self) + 1 + k)
      with (length (W3CActions.data self) + S k) by lia.
    reflexivity.
Qed.

Lemma ids_by_position_nil : ids_by_position [].
Proof. intros i v Hi. rewrite lookup_nil in Hi. discriminate. Qed.

Lemma ids_by_position_app (l l' : list value) :
  ids_by_position l ->
  (forall k v, l' !! k = Some v ->
     timeline_id v = Some ("keyboard" +:+ pretty (length l + k)) \/
     timeline_id v = Some ("finger" +:+ pretty (length l + k))) ->
  ids_by_position (l ++ l').
Proof.
  intros Hl Hl' i v Hi. apply lookup_app_Some in Hi as [Hi | [Hle Hi]].
  - apply Hl, Hi.
  - specialize (Hl' _ _ Hi).
    replace (length l + (i - length l)) with i in Hl' by lia. exact Hl'.
Qed.

Lemma w3c_run_ids_by_position (self : W3CActions.t) (c : w3c_call) :
  ids_by_position (W3CActions.data self) ->
  ids_by_position (W3CActions.data (w3c_run self c)).
Proof.
  intros Hself. destruct c as [text | actions]; cbn [w3c_run].
  - destruct (send_keys_appends self text) as (timeline & -> & _ & Hid).
    apply ids_by_position_app; [exact Hself |].
    intros [| k] v Hk; [| destruct k; discriminate].
    injection Hk as <-. left. rewrite Nat.add_0_r. exact Hid.
  - rewrite inject_touch_actions_appends.
    apply ids_by_position_app; [exact Hself |].
    intros k v Hk. rewrite list_lookup_imap in Hk.
    destruct (actions !! k) as [action |]; [| discriminate].
    injection Hk as <-. right. reflexivity.
Qed.

Lemma w3c_calls_ids_by_position (calls : list w3c_call) (self : W3CActions.t) :
  ids_by_position (W3CActions.data self) ->
  ids_by_position (W3CActions.data (foldl w3c_run self calls)).
Proof.
  revert self. induction calls as [| c calls IH]; intros self Hself; simpl.
  - exact Hself.
  - apply IH, w3c_run_ids_by_position, Hself.
Qed.

Lemma append_inj_r (p a b : string) : p +:+ a = p +:+ b -> a = b.
Proof.
  induction p as [| c p IH]; cbn; intros H; [exact H |].
  injection H as H. apply IH, H.
Qed.

Lemma keyboard_finger_ne (a b : string) : "keyboard" +:+ a <> "finger" +:+ b.
Proof. cbn. discriminate. Qed.

Lemma ids_by_position_NoDup (l : list value) :
  ids_by_position l -> NoDup (map timeline_id l).
Proof.
  intros Hl. apply NoDup_alt. intros i j o Hi Hj.
  rewrite list_lookup_fmap in Hi, Hj.
  destruct (l !! i) as [vi |] eqn:Ei; [| discriminate].
  destruct (l !! j) as [vj |] eqn:Ej; [| discriminate].
  cbn in Hi, Hj. rewrite <- Hj in Hi. clear Hj o.
  destruct (Hl i vi Ei) as [Hvi | Hvi], (Hl j vj Ej) as [Hvj | Hvj];
    rewrite Hvi, Hvj in Hi; do 2 apply (inj Some) in Hi.
  - apply (inj pretty), (append_inj_r _ _ _ Hi).
  - destruct (keyboard_finger_ne _ _ Hi).
  - symmetry in Hi. destruct (keyboard_finger_ne _ _ Hi).
  - apply (inj pretty), (append_inj_r _ _ _ Hi).
Qed.

(** C8. Starting from a fresh [W3CActions], after any sequence of
    [send_keys] and [inject_touch_actions] calls: each call gives the
    timelines it appends identifiers made from the length of the set when
    each is appended ([keyboard<len>] for a key timeline, [finger<len>] for
    a pointer timeline); so the timeline at position [i] is identified by
    [i], and the identifiers of the set are pairwise distinct.  In
    particular two finger timelines and one key timeline, in each of the
    three orders, receive three distinct identifiers. *)
Theorem timeline_identifiers_distinct :
  (forall (self : W3CActions.t) (text : string),
     exists timeline,
       W3CActions.data (W3CActions.send_keys self text) =
         W3CActions.data self ++ [timeline] /\
       timeline_id timeline =
         Some ("keyboard" +:+ pretty (length (W3CActions.data self)))) /\
  (forall (self : W3CActions.t) (actions : list FingerAction.t),
     W3CActions.data (W3CActions.inject_touch_actions self actions) =
     W3CActions.data self ++
     imap (fun k action =>
             Wire.pointer ("finger" +:+ pretty (length (W3CActions.data self) + k))
                          (FingerAction.data action))
          actions) /\
  (forall calls : list w3c_call,
     let timelines := W3CActions.data (foldl w3c_run W3CActions.init calls) in
     (forall i v,
        timelines !! i = Some v ->
        timeline_id v = Some ("keyboard" +:+ pretty i) \/
        timeline_id v = Some ("finger" +:+ pretty i)) /\
     NoDup (map timeline_id timelines)) /\
  (forall (a b : FingerAction.t) (text : string),
     map timeline_id
       (W3CActions.data
          (foldl w3c_run W3CActions.init
             [InjectTouchActions [a]; InjectTouchActions [b]; SendKeys text])) =
       [Some "finger0"; Some "finger1"; Some "keyboard2"] /\
     map timeline_id
       (W3CActions.data
          (foldl w3c_run W3CActions.init
             [InjectTouchActions [a]; SendKeys text; InjectTouchActions [b]])) =
       [Some "finger0"; Some "keyboard1"; Some "finger2"] /\
     map timeline_id
       (W3CActions.data
          (foldl w3c_run W3CActions.init
             [SendKeys text; InjectTouchActions [a]; InjectTouchActions [b]])) =
       [Some "keyboard0"; Some "finger1"; Some "finger2"] /\
     NoDup ["finger0"; "finger1"; "keyboard2"] /\
     NoDup ["finger0"; "keyboard1"; "finger2"] /\
     NoDup ["keyboard0"; "finger1"; "finger2"]).
Proof.
  split.
  { intros self text. destruct (send_keys_appends self text) as (tl & H1 & _ & H2).
    exists tl. split; assumption. }
  split; [intros self actions; apply inject_touch_actions_appends |].
  split.
  { intros calls timelines.
    assert (H : ids_by_position timelines)
      by apply w3c_calls_ids_by_position, ids_by_position_nil.
    split; [exact H | apply ids_by_position_NoDup, H]. }
  intros a b text.
  split; [reflexivity |]. split; [reflexivity |]. split; [reflexivity |].
  repeat split; compute_done.
Qed.

Lemma timeline_identifiers_distinct_witness :
  let timelines :=
    W3CActions.data
      (foldl w3c_run W3CActions.init
         [InjectTouchActions [FingerAction.down FingerAction.init]; SendKeys "ok"]) in
  exists v,
    timelines !! 1 = Some v /\
    (timeline_id v = Some ("keyboard" +:+ pretty 1) \/
     timeline_id v = Some ("finger" +:+ pretty 1)).
Proof.
  cbv zeta. eexists. split; [reflexivity |].
  refine (proj1 (proj1 (proj2 (proj2 timeline_identifiers_distinct))
                   [InjectTouchActions [FingerAction.down FingerAction.init];
                    SendKeys "ok"])
                1 _ _).
  reflexivity.
Defined.

(** ** Key timelines *)

Lemma send_keys_data (self : W3CActions.t) (text : string) :
  W3CActions.data (W3CActions.send_keys self text) =
  W3CActions.data self ++
  [ Wire.key ("keyboard" +:+ pretty (length (W3CActions.data self)))
      (map (fun c => VGen [Wire.keyDown c; Wire.keyUp c])
           (String.list_ascii_of_string text)) ].
Proof. reflexivity. Qed.

Lemma send_keys_actions_length (self : W3CActions.t) (text : string) :
  exists actions,
    W3CActions.data (W3CActions.send_keys self text) =
      W3CActions.data self ++
      [ Wire.key ("keyboard" +:+ pretty (length (W3CActions.data self))) actions ] /\
    length actions = String.length text /\
    Forall (fun a => exists c, a = VGen [Wire.keyDown c; Wire.keyUp c]) actions.
Proof.
  eexists. split; [apply send_keys_data |]. split.
  - rewrite length_map. induction text as [| c text IH]; cbn; congruence.
  - apply Forall_forall. intros a Ha. apply list_elem_of_fmap in Ha as (c & -> & _).
    exists c. reflexivity.
Qed.

(** C2, at [text = "ab"].  [send_keys] appends one key timeline, but its
    actions list holds one generator object per character (each would yield
    the character's key-down and key-up records): two elements, none of them
    a record, where the flat list has the four records keyDown a, keyUp a,
    keyDown b, keyUp b. *)
Theorem send_keys_actions_not_flat :
  let timelines := W3CActions.data (W3CActions.send_keys W3CActions.init "ab") in
  let flat :=
    [ Wire.keyDown "a"; Wire.keyUp "a"; Wire.keyDown "b"; Wire.keyUp "b" ] in
  timelines =
    [ Wire.key "keyboard0"
        [ VGen [Wire.keyDown "a"; Wire.keyUp "a"];
          VGen [Wire.keyDown "b"; Wire.keyUp "b"] ] ] /\
  timelines <> [ Wire.key "keyboard0" flat ] /\
  (exists actions,
     (timelines !! 0) ≫= (fun tl => field tl "actions") = Some (VList actions) /\
     length actions = 2 /\
     length actions <> 2 * String.length "ab").
Proof.
  cbv zeta. split; [reflexivity |]. split.
  - intros H.
    apply (f_equal (fun l => (l !! 0) ≫= (fun tl => field tl "actions"))) in H.
    vm_compute in H. discriminate H.
  - eexists. split; [reflexivity |]. split; [reflexivity |]. cbn. lia.
Qed.

(** ** Legacy swipe *)

Lemma of_int_nonzero (n : Z) : n <> 0%Z -> Qeq_bool (Num.of_int n) 0 = false.
Proof.
  intros Hn. apply not_true_iff_false. intros H. apply Qeq_bool_iff in H.
  unfold Num.of_int, inject_Z, Qeq in H. simpl in H. lia.
Qed.

Lemma truediv_nonzero (a : Q) (n : Z) :
  n <> 0%Z -> Num.truediv a (Num.of_int n) = Ok (Qred (a / inject_Z n)).
Proof. intros Hn. unfold Num.truediv. rewrite (of_int_nonzero n Hn). reflexivity. Qed.

Lemma truediv_zero (a : Q) : Num.truediv a (Num.of_int 0) = Raise ZeroDivisionError.
Proof. reflexivity. Qed.

Lemma interpolation_loop (element_uid : option string) (interval : Q)
    (x y : Z -> Q) (range : list Z) (self : TouchActions.t) :
  TouchActions.data
    (foldl (fun self i =>
              TouchActions.pause
                (TouchActions.move self
                   (TouchMovement.with_origin
                      (TouchMovement.with_xy TouchMovement.init (x i) (y i))
                      element_uid))
                interval)
           self range) =
  TouchActions.data self ++
  flat_map (fun i => [ Wire.moveTo (x i) (y i) element_uid;
                       Wire.wait (pause_ms interval) ])
           range.
Proof.
  revert self. induction range as [| i range IH]; intros self.
  - simpl. symmetry. apply app_nil_r.
  - cbn [foldl flat_map]. rewrite IH, touch_pause_appends.
    cbn [TouchActions.move TouchActions.append TouchActions.data].
    rewrite touch_movement_shape, <- !app_assoc. reflexivity.
Qed.

Lemma swipe_instantaneous_data (self : TouchActions.t) (from_x from_y to_x to_y : Q)
    (element_uid : option string) (press_seconds delta hold_seconds : Q)
    (do_up : bool) :
  exists after,
    TouchActions.swipe self from_x from_y to_x to_y element_uid
      press_seconds None delta hold_seconds do_up = Ok after /\
    TouchActions.data after =
      TouchActions.data self ++
      [ Wire.press from_x from_y element_uid; Wire.wait (pause_ms press_seconds);
        Wire.moveTo to_x to_y element_uid; Wire.wait (pause_ms hold_seconds) ] ++
      (if do_up then [Wire.release] else []).
Proof.
  eexists. split; [reflexivity |].
  assert (Hbody :
    TouchActions.data
      (TouchActions.pause
         (TouchActions.move
            (TouchActions.pause
               (TouchActions.press self
                  (TouchPress.with_origin
                     (TouchPress.with_xy TouchPress.init from_x from_y) element_uid))
               press_seconds)
            (TouchMovement.with_origin
               (TouchMovement.with_xy TouchMovement.init to_x to_y) element_uid))
         hold_seconds) =
    TouchActions.data self ++
    [ Wire.press from_x from_y element_uid; Wire.wait (pause_ms press_seconds);
      Wire.moveTo to_x to_y element_uid; Wire.wait (pause_ms hold_seconds) ]).
  { rewrite touch_pause_appends.
    cbn [TouchActions.move TouchActions.append TouchActions.data].
    rewrite touch_pause_appends.
    cbn [TouchActions.press TouchActions.append TouchActions.data].
    rewrite touch_press_shape, touch_movement_shape, <- !app_assoc. reflexivity. }
  destruct do_up.
  - cbn [TouchActions.up TouchActions.append TouchActions.data].
    rewrite Hbody, <- !app_assoc. reflexivity.
  - rewrite Hbody, app_nil_r. reflexivity.
Qed.

Lemma swipe_interpolated_data (self : TouchActions.t) (from_x from_y to_x to_y : Q)
    (element_uid : option string) (press_seconds swipe_seconds delta hold_seconds : Q)
    (do_up : bool) (steps : Z) :
  TouchActions.swipe_steps from_x from_y to_x to_y delta = Ok steps ->
  steps <> 0%Z ->
  let dx := Qred (Num.sub to_x from_x / inject_Z steps) in
  let dy := Qred (Num.sub to_y from_y / inject_Z steps) in
  let interval := Qred (swipe_seconds / inject_Z steps) in
  exists after,
    TouchActions.swipe self from_x from_y to_x to_y element_uid
      press_seconds (Some swipe_seconds) delta hold_seconds do_up = Ok after /\
    TouchActions.data after =
      TouchActions.data self ++
      [ Wire.press from_x from_y element_uid; Wire.wait (pause_ms press_seconds) ] ++
      flat_map (fun i =>
                  [ Wire.moveTo (Num.add from_x (Num.mul (inject_Z i) dx))
                                (Num.add from_y (Num.mul (inject_Z i) dy))
                                element_uid;
                    Wire.wait (pause_ms interval) ])
               (seqZ 1 steps) ++
      [ Wire.moveTo (Num.add from_x (Num.mul (inject_Z steps) dx))
                    (Num.add from_y (Num.mul (inject_Z steps) dy))
                    element_uid;
        Wire.wait (pause_ms hold_seconds) ] ++
      (if do_up then [Wire.release] else []).
Proof.
  intros Hsteps Hnz dx dy interval.
  unfold TouchActions.swipe. rewrite Hsteps. cbn [mbind result_bind].
  rewrite !(truediv_nonzero _ steps Hnz). cbn [mbind result_bind].
  fold dx dy interval.
  eexists. split; [reflexivity |].
  assert (Hbody :
    TouchActions.data
      (TouchActions.pause
         (TouchActions.move
            (foldl (fun self i =>
                      TouchActions.pause
                        (TouchActions.move self
                           (TouchMovement.with_origin
                              (TouchMovement.with_xy TouchMovement.init
                                 (Num.add from_x (Num.mul (Num.of_int i) dx))
                                 (Num.add from_y (Num.mul (Num.of_int i) dy)))
                              element_uid))
                        interval)
                   (TouchActions.pause
                      (TouchActions.press self
                         (TouchPress.with_origin
                            (TouchPress.with_xy TouchPress.init from_x from_y)
                            element_uid))
                      press_seconds)
                   (TouchActions.swipe_range steps))
            (TouchMovement.with_origin
               (TouchMovement.with_xy TouchMovement.init
                  (Num.add from_x (Num.mul (Num.of_int steps) dx))
                  (Num.add from_y (Num.mul (Num.of_int steps) dy)))
               element_uid))
         hold_seconds) =
    TouchActions.data self ++
    [ Wire.press from_x from_y element_uid; Wire.wait (pause_ms press_seconds) ] ++
    flat_map (fun i =>
                [ Wire.moveTo (Num.add from_x (Num.mul (inject_Z i) dx))
                              (Num.add from_y (Num.mul (inject_Z i) dy))
                              element_uid;
                  Wire.wait (pause_ms interval) ])
             (seqZ 1 steps) ++
    [ Wire.moveTo (Num.add from_x (Num.mul (inject_Z steps) dx))
                  (Num.add from_y (Num.mul (inject_Z steps) dy))
                  element_uid;
      Wire.wait (pause_ms hold_seconds) ]).
  { rewrite touch_pause_appends.
    cbn [TouchActions.move TouchActions.append TouchActions.data].
    rewrite (interpolation_loop element_uid interval
               (fun i => Num.add from_x (Num.mul (Num.of_int i) dx))
               (fun i => Num.add from_y (Num.mul (Num.of_int i) dy))).
    rewrite touch_pause_appends.
    cbn [TouchActions.press TouchActions.append TouchActions.data].
    rewrite touch_press_shape, touch_movement_shape, <- !app_assoc. reflexivity. }
  destruct do_up.
  - cbn [TouchActions.up TouchActions.append TouchActions.data].
    rewrite Hbody, <- !app_assoc. reflexivity.
  - rewrite Hbody, app_nil_r. reflexivity.
Qed.

Lemma swipe_zero_steps_raises (self : TouchActions.t) (from_x from_y to_x to_y : Q)
    (element_uid : option string) (press_seconds swipe_seconds delta hold_seconds : Q)
    (do_up : bool) :
  TouchActions.swipe_steps from_x from_y to_x to_y delta = Ok 0%Z ->
  TouchActions.swipe self from_x from_y to_x to_y element_uid
    press_seconds (Some swipe_seconds) delta hold_seconds do_up =
  Raise ZeroDivisionError.
Proof.
  intros Hsteps. unfold TouchActions.swipe. rewrite Hsteps. reflexivity.
Qed.

Lemma sub_diag (x : Q) : Num.sub x x = 0%Q.
Proof.
  unfold Num.sub. change 0%Q with (Qred 0). apply Qred_complete. ring.
Qed.

Lemma swipe_zero_distance_raises (self : TouchActions.t) (x y : Q)
    (element_uid : option string) (press_seconds swipe_seconds delta hold_seconds : Q)
    (do_up : bool) :
  TouchActions.swipe self x y x y element_uid
    press_seconds (Some swipe_seconds) delta hold_seconds do_up =
  Raise ZeroDivisionError.
Proof.
  unfold TouchActions.swipe, TouchActions.swipe_steps, Num.int_truediv_root.
  rewrite !sub_diag.
  destruct (Qeq_bool delta 0); [reflexivity |].
  change (Num.sqrt (Num.add (Num.pow2 0) (Num.pow2 0))) with (Num.Sqrt 0).
  cbv iota beta.
  replace (Qfloor (0 / (delta * delta))) with 0%Z
    by (destruct delta as [[| p | p] d]; reflexivity).
  rewrite Z.mul_0_r. reflexivity.
Qed.

(** C1, at [swipe(0, 0, 0, 0, swipe_seconds=1.0)] and at
    [swipe(0, 0, 5, 0, swipe_seconds=1.0)] with the default [delta = 10]:
    the step count is 0 and the call raises [ZeroDivisionError] (the division
    by [steps] that computes [dx]), where the claim has it return after
    press, pause, the terminal move, pause and release. *)
Theorem legacy_swipe_zero_steps_raises :
  TouchActions.swipe_steps 0 0 0 0 TouchActions.swipe_default_delta = Ok 0%Z /\
  TouchActions.swipe TouchActions.init 0 0 0 0 None
    TouchActions.swipe_default_press_seconds (Some 1%Q)
    TouchActions.swipe_default_delta TouchActions.swipe_default_hold_seconds
    TouchActions.swipe_default_up = Raise ZeroDivisionError /\
  TouchActions.swipe_steps 0 0 5 0 TouchActions.swipe_default_delta = Ok 0%Z /\
  TouchActions.swipe TouchActions.init 0 0 5 0 None
    TouchActions.swipe_default_press_seconds (Some 1%Q)
    TouchActions.swipe_default_delta TouchActions.swipe_default_hold_seconds
    TouchActions.swipe_default_up = Raise ZeroDivisionError.
Proof. repeat split; reflexivity. Qed.

Lemma interpolation_length (f g : Z -> value) (range : list Z) :
  length (flat_map (fun i => [f i; g i]) range) = 2 * length range.
Proof.
  induction range as [| i range IH]; [reflexivity |].
  cbn [flat_map app length]. rewrite IH. lia.
Qed.

Lemma step_back_to_end (a b : Q) (steps : Z) :
  steps <> 0%Z ->
  let d := Qred (Num.sub b a / inject_Z steps) in
  (Num.add a (Num.mul (inject_Z steps) d) == b)%Q /\
  Num.add a (Num.mul (inject_Z steps) d) = Qred b.
Proof.
  intros Hnz d.
  assert (Heq : (Num.add a (Num.mul (inject_Z steps) d) == b)%Q).
  { subst d. unfold Num.add, Num.mul, Num.sub. rewrite !Qred_correct.
    field. intros H. unfold inject_Z, Qeq in H. simpl in H. lia. }
  split; [exact Heq |].
  unfold Num.add at 1. apply Qred_complete.
  unfold Num.add in Heq. rewrite Qred_correct in Heq. exact Heq.
Qed.

(** C10. In exact rational arithmetic, for every interpolated
    [TouchActions.swipe] with [steps = int(distance / delta) >= 1], the
    terminal move, found right after the [steps] interpolated move/pause
    pairs, has the coordinates
    [(from_x + steps * dx, from_y + steps * dy)] with
    [dx = (to_x - from_x) / steps] and [dy = (to_y - from_y) / steps], and
    these are equal to [(to_x, to_y)], whether or not [steps] divides the
    span: equal as rationals, and the stored numbers are [to_x] and [to_y] in
    lowest terms. *)
Theorem legacy_swipe_terminal_move_is_end_point
    (self : TouchActions.t) (from_x from_y to_x to_y : Q)
    (element_uid : option string)
    (press_seconds swipe_seconds delta hold_seconds : Q)
    (do_up : bool) (steps : Z) :
  TouchActions.swipe_steps from_x from_y to_x to_y delta = Ok steps ->
  (1 <= steps)%Z ->
  let dx := Qred (Num.sub to_x from_x / inject_Z steps) in
  let dy := Qred (Num.sub to_y from_y / inject_Z steps) in
  let end_x := Num.add from_x (Num.mul (inject_Z steps) dx) in
  let end_y := Num.add from_y (Num.mul (inject_Z steps) dy) in
  exists after,
    TouchActions.swipe self from_x from_y to_x to_y element_uid
      press_seconds (Some swipe_seconds) delta hold_seconds do_up = Ok after /\
    TouchActions.data after
      !! (length (TouchActions.data self) + 2 + 2 * Z.to_nat steps) =
      Some (Wire.moveTo end_x end_y element_uid) /\
    (end_x == to_x)%Q /\ (end_y == to_y)%Q /\
    end_x = Qred to_x /\ end_y = Qred to_y.
Proof.
  intros Hsteps Hge dx dy end_x end_y.
  assert (Hnz : steps <> 0%Z) by lia.
  destruct (swipe_interpolated_data self from_x from_y to_x to_y element_uid
              press_seconds swipe_seconds delta hold_seconds do_up steps Hsteps Hnz)
    as (after & Hrun & Hdata).
  exists after. split; [exact Hrun |]. split.
  - rewrite Hdata. fold dx dy end_x end_y.
    rewrite lookup_app_r by lia.
    replace (length (TouchActions.data self) + 2 + 2 * Z.to_nat steps
             - length (TouchActions.data self)) with (2 + 2 * Z.to_nat steps) by lia.
    cbn [app].
    change ((?a :: ?b :: ?l) !! (2 + ?k)) with (l !! k).
    match goal with
    | |- (flat_map ?h ?r ++ _) !! _ = _ =>
        assert (Hlen : length (flat_map h r) = 2 * Z.to_nat steps)
          by (rewrite (interpolation_length _ _ r), length_seqZ; reflexivity)
    end.
    rewrite lookup_app_r by lia.
    rewrite Hlen, Nat.sub_diag. reflexivity.
  - destruct (step_back_to_end from_x to_x steps Hnz) as [Hx Hx'].
    destruct (step_back_to_end from_y to_y steps Hnz) as [Hy Hy'].
    repeat split; assumption.
Qed.

Lemma legacy_swipe_terminal_move_is_end_point_witness :
  TouchActions.swipe_steps 0 0 10 0 3 = Ok 3%Z /\
  (1 <= 3)%Z /\
  exists after,
    TouchActions.swipe TouchActions.init 0 0 10 0 None
      (1 # 4) (Some 1%Q) 3 (1 # 4) true = Ok after /\
    TouchActions.data after !! 8 = Some (Wire.moveTo 10 0 None) /\
    (10 == 10)%Q /\ (0 == 0)%Q /\ 10%Q = Qred 10 /\ 0%Q = Qred 0.
Proof.
  assert (Hsteps : TouchActions.swipe_steps 0 0 10 0 3 = Ok 3%Z) by reflexivity.
  assert (Hge : (1 <= 3)%Z) by lia.
  split; [exact Hsteps |]. split; [exact Hge |].
  exact (legacy_swipe_terminal_move_is_end_point
           TouchActions.init 0%Q 0%Q 10%Q 0%Q None
           (1 # 4)%Q 1%Q 3%Q (1 # 4)%Q true 3%Z Hsteps Hge).
Defined.

Lemma appended_primitives_keep_call_order_witness :
  let calls := [FDown; FPause (-1); FUp] in
  let after := FingerAction.data (foldl finger_run FingerAction.init calls) in
  calls !! 1 = Some (FPause (-1)) /\
  after !! (length (FingerAction.data FingerAction.init) + 1) =
    Some (finger_primitive (FPause (-1))) /\
  after = [Wire.pointerDown; Wire.pause 500; Wire.pointerUp].
Proof.
  cbv zeta.
  assert (H : [FDown; FPause (-1); FUp] !! 1 = Some (FPause (-1))) by reflexivity.
  split; [exact H |]. split.
  - exact (proj2 (proj2 (proj2
             (proj1 (proj2 appended_primitives_keep_call_order)
                FingerAction.init [FDown; FPause (-1); FUp])))
             1 (FPause (-1)) H).
  - reflexivity.
Defined.


(** * Further properties of the builders *)

(** ** Pointer movements *)

Lemma finger_movement_eq (m m' : FingerMovement.t) :
  FingerMovement.data m = FingerMovement.data m' -> m = m'.
Proof. destruct m, m'. cbn. intros ->. reflexivity. Qed.

(** X1. Each configuration method of [FingerMovement] overwrites what an
    earlier call of the same method stored: after two [with_xy] only the
    second pair of coordinates is left, and likewise for two [with_origin]
    with an element and two [with_duration] with a value; nothing
    accumulates. *)
Theorem finger_movement_overwrites (m : FingerMovement.t) :
  (forall x1 y1 x2 y2,
     FingerMovement.with_xy (FingerMovement.with_xy m x1 y1) x2 y2 =
     FingerMovement.with_xy m x2 y2) /\
  (forall e1 e2,
     FingerMovement.with_origin (FingerMovement.with_origin m (Some e1)) (Some e2) =
     FingerMovement.with_origin m (Some e2)) /\
  (forall s1 s2,
     FingerMovement.with_duration (FingerMovement.with_duration m (Some s1)) (Some s2) =
     FingerMovement.with_duration m (Some s2)).
Proof.
  split; [| split].
  - intros x1 y1 x2 y2. apply finger_movement_eq. cbn.
    apply map_eq. intros k. rewrite !lookup_insert.
    repeat case_decide; congruence.
  - intros e1 e2. apply finger_movement_eq. cbn. apply insert_insert_eq.
  - intros s1 s2. apply finger_movement_eq. cbn. apply insert_insert_eq.
Qed.

(** X2. The configuration methods of [FingerMovement] commute: coordinates,
    origin and duration can be set in any order with the same result. *)
Theorem finger_movement_calls_commute (m : FingerMovement.t) (x y : Q)
    (element_uid : option string) (second : option Q) :
  FingerMovement.with_origin (FingerMovement.with_xy m x y) element_uid =
    FingerMovement.with_xy (FingerMovement.with_origin m element_uid) x y /\
  FingerMovement.with_duration (FingerMovement.with_xy m x y) second =
    FingerMovement.with_xy (FingerMovement.with_duration m second) x y /\
  FingerMovement.with_duration (FingerMovement.with_origin m element_uid) second =
    FingerMovement.with_origin (FingerMovement.with_duration m second) element_uid.
Proof.
  split; [| split]; destruct element_uid, second; try reflexivity;
    apply finger_movement_eq; cbn; apply map_eq; intros k;
    rewrite !lookup_insert; repeat case_decide; congruence.
Qed.

(** X3. Reading a movement back after [with_xy(x, y)], [with_origin(e)],
    [with_duration(s)] on any movement [m]: the coordinates are [x] and [y]
    as given; the origin is [e], and [with_origin(None)] leaves an origin
    stored earlier in place instead of clearing it; the duration is
    [s * 1000], and [with_duration(None)] likewise keeps an earlier
    duration; every other member, the ["type"] discriminant included, is
    that of [m]. *)
Theorem finger_movement_reads_back (m : FingerMovement.t) (x y : Q)
    (element_uid : option string) (second : option Q) :
  let d :=
    FingerMovement.data
      (FingerMovement.with_duration
         (FingerMovement.with_origin (FingerMovement.with_xy m x y) element_uid)
         second) in
  d !! "x" = Some (VNum x) /\
  d !! "y" = Some (VNum y) /\
  d !! "origin" =
    match element_uid with
    | Some uid => Some (VStr uid)
    | None => FingerMovement.data m !! "origin"
    end /\
  d !! "duration" =
    match second with
    | Some s => Some (VNum (Num.mul s 1000))
    | None => FingerMovement.data m !! "duration"
    end /\
  (forall k : string,
     k <> "x" -> k <> "y" -> k <> "origin" -> k <> "duration" ->
     d !! k = FingerMovement.data m !! k).
Proof.
  cbv zeta. destruct element_uid, second; cbn;
    repeat split; try (intros k Hx Hy Ho Hd);
    rewrite !lookup_insert; repeat case_decide; congruence.
Qed.

Lemma finger_movement_reads_back_witness :
  FingerMovement.data
    (FingerMovement.with_duration
       (FingerMovement.with_origin
          (FingerMovement.with_xy
             (FingerMovement.with_origin FingerMovement.init (Some "E1"%string)) 1 2)
          None)
       None) !! "type" = Some (VStr "pointerMove").
Proof.
  refine (proj2 (proj2 (proj2 (proj2
            (finger_movement_reads_back
               (FingerMovement.with_origin FingerMovement.init (Some "E1"%string))
               1%Q 2%Q None None)))) "type" _ _ _ _); discriminate.
Defined.

(** ** Legacy primitive builders *)

Lemma set_option_record (action : string) (d : gmap string value)
    (k : string) (v : value) :
  legacy_record action d ->
  legacy_record action (set_option d k v) /\
  legacy_options (set_option d k v) = (fun o => <[k := v]> o) <$> legacy_options d.
Proof.
  intros (Ha & (o & Ho) & Hdom). unfold legacy_options, set_option. rewrite Ho.
  rewrite lookup_insert_eq. split; [| reflexivity].
  split; [| split].
  - rewrite lookup_insert_ne by discriminate. exact Ha.
  - eexists. apply lookup_insert_eq.
  - rewrite dom_insert_L, Hdom. set_solver.
Qed.

Lemma set_option_overwrites (d : gmap string value) (k : string) (v1 v2 : value) :
  set_option (set_option d k v1) k v2 = set_option d k v2.
Proof.
  unfold set_option. destruct (d !! "options") as [[| | o | | |] |] eqn:E;
    rewrite ?E; try reflexivity.
  rewrite lookup_insert_eq, !insert_insert_eq. reflexivity.
Qed.

Lemma set_option_commutes (d : gmap string value) (k1 k2 : string) (v1 v2 : value) :
  k1 <> k2 ->
  set_option (set_option d k1 v1) k2 v2 = set_option (set_option d k2 v2) k1 v1.
Proof.
  intros Hk. unfold set_option. destruct (d !! "options") as [[| | o | | |] |] eqn:E;
    rewrite ?E; try reflexivity.
  rewrite !lookup_insert_eq, !insert_insert_eq. do 2 f_equal.
  apply map_eq. intros k. rewrite !lookup_insert. repeat case_decide; congruence.
Qed.

Lemma touch_press_eq (p p' : TouchPress.t) :
  TouchPress.data p = TouchPress.data p' -> p = p'.
Proof. destruct p, p'. cbn. intros ->. reflexivity. Qed.

Lemma touch_tap_eq (p p' : TouchTap.t) :
  TouchTap.data p = TouchTap.data p' -> p = p'.
Proof. destruct p, p'. cbn. intros ->. reflexivity. Qed.

(** X4. Every legacy primitive builder keeps its record well formed: a
    fresh [TouchMovement], [TouchPress], [TouchLongPress] or [TouchTap] holds
    its ["action"] discriminant ([moveTo], [press], [longPress], [tap]) and
    an ["options"] dict and nothing else, and every configuration method
    ([with_xy], [with_origin], [with_pressure], [with_count]) preserves
    this: the discriminant never changes, no member is added beside
    ["options"], and ["options"] stays a dict. *)
Theorem legacy_builders_keep_record :
  (legacy_record "moveTo" (TouchMovement.data TouchMovement.init) /\
   forall m x y e,
     legacy_record "moveTo" (TouchMovement.data m) ->
     legacy_record "moveTo" (TouchMovement.data (TouchMovement.with_xy m x y)) /\
     legacy_record "moveTo" (TouchMovement.data (TouchMovement.with_origin m e))) /\
  (legacy_record "press" (TouchPress.data TouchPress.init) /\
   forall p x y e pressure,
     legacy_record "press" (TouchPress.data p) ->
     legacy_record "press" (TouchPress.data (TouchPress.with_xy p x y)) /\
     legacy_record "press" (TouchPress.data (TouchPress.with_origin p e)) /\
     legacy_record "press" (TouchPress.data (TouchPress.with_pressure p pressure))) /\
  (legacy_record "longPress" (TouchLongPress.data TouchLongPress.init) /\
   forall l x y e,
     legacy_record "longPress" (TouchLongPress.data l) ->
     legacy_record "longPress" (TouchLongPress.data (TouchLongPress.with_xy l x y)) /\
     legacy_record "longPress"
       (TouchLongPress.data (TouchLongPress.with_origin l e))) /\
  (legacy_record "tap" (TouchTap.data TouchTap.init) /\
   forall t x y e count,
     legacy_record "tap" (TouchTap.data t) ->
     legacy_record "tap" (TouchTap.data (TouchTap.with_xy t x y)) /\
     legacy_record "tap" (TouchTap.data (TouchTap.with_origin t e)) /\
     legacy_record "tap" (TouchTap.data (TouchTap.with_count t count))).
Proof.
  assert (Hinit : forall action : string,
            legacy_record action {[ "action" := VStr action; "options" := VDict ∅ ]}).
  { intros action. split; [reflexivity |]. split; [eexists; reflexivity |].
    rewrite !dom_insert_L, ?dom_singleton_L, ?dom_empty_L. set_solver. }
  assert (Hxy : forall action d x y,
            legacy_record action d ->
            legacy_record action (set_option (set_option d "x" (VNum x)) "y" (VNum y))).
  { intros action d x y H. apply set_option_record, set_option_record, H. }
  assert (Hone : forall action d k v,
            legacy_record action d -> legacy_record action (set_option d k v)).
  { intros action d k v H. apply set_option_record, H. }
  split; [| split; [| split]].
  - split; [apply Hinit |]. intros m x y e H.
    split; [apply Hxy, H |]. destruct e; [apply Hone |]; exact H.
  - split; [apply Hinit |]. intros p x y e pressure H.
    split; [apply Hxy, H |]. split; [| apply Hone, H].
    destruct e; [apply Hone |]; exact H.
  - split; [apply Hinit |]. intros l x y e H.
    split; [apply Hxy, H |]. destruct e; [apply Hone |]; exact H.
  - split; [apply Hinit |]. intros t x y e count H.
    split; [apply Hxy, H |]. split; [| apply Hone, H].
    destruct e; [apply Hone |]; exact H.
Qed.

Lemma legacy_builders_keep_record_witness :
  legacy_record "press" (TouchPress.data TouchPress.init) /\
  legacy_record "press"
    (TouchPress.data (TouchPress.with_pressure TouchPress.init (3 # 2))).
Proof.
  assert (H : legacy_record "press" (TouchPress.data TouchPress.init))
    by exact (proj1 (proj1 (proj2 legacy_builders_keep_record))).
  split; [exact H |].
  exact (proj2 (proj2 (proj2 (proj1 (proj2 legacy_builders_keep_record))
                         TouchPress.init 0%Q 0%Q None (3 # 2)%Q H))).
Defined.

(** X5. Reading the options of a legacy press back: after [with_xy(x, y)],
    [with_origin(e)] and [with_pressure(p)] on a well-formed [TouchPress],
    the options hold [x], [y] and the pressure [p] exactly as given (no
    range check or clamping of the pressure), ["element"] is [e], or what
    was stored before when [e] is [None], and every other option is
    unchanged. *)
Theorem touch_press_options_read_back (p : TouchPress.t)
    (options : gmap string value) (x y : Q) (element_uid : option string)
    (pressure : Q) :
  legacy_record "press" (TouchPress.data p) ->
  legacy_options (TouchPress.data p) = Some options ->
  exists options',
    legacy_options
      (TouchPress.data
         (TouchPress.with_pressure
            (TouchPress.with_origin (TouchPress.with_xy p x y) element_uid)
            pressure)) = Some options' /\
    options' !! "x" = Some (VNum x) /\
    options' !! "y" = Some (VNum y) /\
    options' !! "pressure" = Some (VNum pressure) /\
    options' !! "element" =
      match element_uid with
      | Some uid => Some (VStr uid)
      | None => options !! "element"
      end /\
    (forall k : string,
       k <> "x" -> k <> "y" -> k <> "pressure" -> k <> "element" ->
       options' !! k = options !! k).
Proof.
  intros Hrec Hopt.
  pose proof (set_option_record "press" _ "x" (VNum x) Hrec) as [Hr1 Ho1].
  pose proof (set_option_record "press" _ "y" (VNum y) Hr1) as [Hr2 Ho2].
  rewrite Ho1, Hopt in Ho2. cbn in Ho2.
  destruct element_uid as [uid |]; cbn [TouchPress.with_origin].
  - pose proof (set_option_record "press" _ "element" (VStr uid) Hr2) as [Hr3 Ho3].
    pose proof (set_option_record "press" _ "pressure" (VNum pressure) Hr3) as [_ Ho4].
    rewrite Ho3, Ho2 in Ho4. cbn in Ho4.
    eexists. split; [exact Ho4 |].
    repeat split; try (intros k H1 H2 H3 H4);
      rewrite !lookup_insert; repeat case_decide; congruence.
  - pose proof (set_option_record "press" _ "pressure" (VNum pressure) Hr2) as [_ Ho4].
    rewrite Ho2 in Ho4. cbn in Ho4.
    eexists. split; [exact Ho4 |].
    repeat split; try (intros k H1 H2 H3 H4);
      rewrite !lookup_insert; repeat case_decide; congruence.
Qed.

Lemma touch_press_options_read_back_witness :
  exists options',
    legacy_options
      (TouchPress.data
         (TouchPress.with_pressure
            (TouchPress.with_origin
               (TouchPress.with_xy
                  (TouchPress.with_origin TouchPress.init (Some "E1"%string)) 5 (-7))
               None)
            (5 # 2))) = Some options' /\
    options' !! "x" = Some (VNum 5) /\
    options' !! "y" = Some (VNum (-7)) /\
    options' !! "pressure" = Some (VNum (5 # 2)) /\
    options' !! "element" = Some (VStr "E1").
Proof.
  assert (Hrec : legacy_record "press"
            (TouchPress.data (TouchPress.with_origin TouchPress.init (Some "E1"%string)))).
  { split; [reflexivity |]. split; [eexists; reflexivity |]. compute_done. }
  destruct (touch_press_options_read_back
              (TouchPress.with_origin TouchPress.init (Some "E1"%string))
              {[ "element" := VStr "E1" ]} 5%Q (-7)%Q None (5 # 2)%Q Hrec eq_refl)
    as (o & H1 & H2 & H3 & H4 & H5 & _).
  exists o. repeat split; assumption.
Defined.

(** X6. The options of a legacy builder are overwritten, not accumulated,
    and can be set in any order: on any [TouchPress] two [with_xy] or two
    [with_pressure] leave the second values only and [with_pressure]
    commutes with [with_xy]; on any [TouchTap] two [with_count] leave the
    second count and [with_count] commutes with [with_xy]. *)
Theorem legacy_options_overwrite_and_commute :
  (forall (p : TouchPress.t) x1 y1 x2 y2,
     TouchPress.with_xy (TouchPress.with_xy p x1 y1) x2 y2 =
     TouchPress.with_xy p x2 y2) /\
  (forall (p : TouchPress.t) p1 p2,
     TouchPress.with_pressure (TouchPress.with_pressure p p1) p2 =
     TouchPress.with_pressure p p2) /\
  (forall (p : TouchPress.t) x y pressure,
     TouchPress.with_pressure (TouchPress.with_xy p x y) pressure =
     TouchPress.with_xy (TouchPress.with_pressure p pressure) x y) /\
  (forall (t : TouchTap.t) c1 c2,
     TouchTap.with_count (TouchTap.with_count t c1) c2 = TouchTap.with_count t c2) /\
  (forall (t : TouchTap.t) x y count,
     TouchTap.with_count (TouchTap.with_xy t x y) count =
     TouchTap.with_xy (TouchTap.with_count t count) x y).
Proof.
  repeat split.
  - intros p x1 y1 x2 y2. apply touch_press_eq. cbn.
    rewrite (set_option_commutes _ "y" "x") by discriminate.
    rewrite set_option_overwrites, set_option_overwrites. reflexivity.
  - intros p p1 p2. apply touch_press_eq. cbn. apply set_option_overwrites.
  - intros p x y pressure. apply touch_press_eq. cbn.
    rewrite (set_option_commutes _ "y" "pressure") by discriminate.
    rewrite (set_option_commutes _ "x" "pressure") by discriminate. reflexivity.
  - intros t c1 c2. apply touch_tap_eq. cbn. apply set_option_overwrites.
  - intros t x y count. apply touch_tap_eq. cbn.
    rewrite (set_option_commutes _ "y" "count") by discriminate.
    rewrite (set_option_commutes _ "x" "count") by discriminate. reflexivity.
Qed.

(** ** Action sets *)

(** X7. [inject_touch_actions] with several finger sequences is the same as
    injecting them one call after the other, in the same order, and with no
    sequence at all it leaves the action set as it is. *)
Theorem inject_touch_actions_composes (self : W3CActions.t)
    (first second : list FingerAction.t) :
  W3CActions.inject_touch_actions self (first ++ second) =
    W3CActions.inject_touch_actions
      (W3CActions.inject_touch_actions self first) second /\
  W3CActions.inject_touch_actions self [] = self /\
  length (W3CActions.data (W3CActions.inject_touch_actions self first)) =
    length (W3CActions.data self) + length first.
Proof.
  split; [apply foldl_app |]. split; [reflexivity |].
  rewrite inject_touch_actions_appends, length_app, length_imap. reflexivity.
Qed.

Lemma gesture_run_appends (self : W3CActions.t) (c : w3c_gesture_call) :
  exists new,
    W3CActions.data (w3c_gesture_run self c) = W3CActions.data self ++ new /\
    length new = w3c_gesture_count c /\
    (forall k v,
       new !! k = Some v ->
       timeline_id v =
         Some ("keyboard" +:+ pretty (length (W3CActions.data self) + k)) \/
       timeline_id v =
         Some ("finger" +:+ pretty (length (W3CActions.data self) + k))).
Proof.
  assert (Hinj : forall actions,
    exists new,
      W3CActions.data (W3CActions.inject_touch_actions self actions) =
        W3CActions.data self ++ new /\
      length new = length actions /\
      (forall k v,
         new !! k = Some v ->
         timeline_id v =
           Some ("keyboard" +:+ pretty (length (W3CActions.data self) + k)) \/
         timeline_id v =
           Some ("finger" +:+ pretty (length (W3CActions.data self) + k)))).
  { intros actions. eexists. split; [apply inject_touch_actions_appends |].
    split; [apply length_imap |].
    intros k v Hk. rewrite list_lookup_imap in Hk.
    destruct (actions !! k) as [action |]; [| discriminate].
    injection Hk as <-. right. reflexivity. }
  destruct c as [text | actions | x y e s | x y e s | fx fy tx ty e ps ss hs];
    cbn [w3c_gesture_run w3c_gesture_count].
  - destruct (send_keys_appends self text) as (timeline & Hdata & _ & Hid).
    exists [timeline]. split; [exact Hdata |]. split; [reflexivity |].
    intros [| k] v Hk; [| destruct k; discriminate].
    injection Hk as <-. left. rewrite Nat.add_0_r. exact Hid.
  - apply Hinj.
  - apply (Hinj [_]).
  - apply (Hinj [_]).
  - apply (Hinj [_]).
Qed.

Lemma gesture_calls_append (calls : list w3c_gesture_call) (self : W3CActions.t) :
  exists new,
    W3CActions.data (foldl w3c_gesture_run self calls) =
      W3CActions.data self ++ new /\
    length new = sum_list (map w3c_gesture_count calls) /\
    (ids_by_position (W3CActions.data self) ->
     ids_by_position (W3CActions.data (foldl w3c_gesture_run self calls))).
Proof.
  revert self. induction calls as [| c calls IH]; intros self.
  - exists []. cbn. rewrite app_nil_r. auto.
  - cbn [foldl map sum_list sum_list_with].
    destruct (gesture_run_appends self c) as (new1 & Hd1 & Hl1 & Hid1).
    destruct (IH (w3c_gesture_run self c)) as (new2 & Hd2 & Hl2 & Hid2).
    exists (new1 ++ new2). split; [| split].
    + rewrite Hd2, Hd1, <- app_assoc. reflexivity.
    + rewrite length_app, Hl1, Hl2. reflexivity.
    + intros Hself. apply Hid2. rewrite Hd1.
      apply ids_by_position_app; assumption.
Qed.

(** X8. An action set is append-only also through the gesture helpers: after
    any sequence of [send_keys], [inject_touch_actions], [tap], [press] and
    [swipe] calls the timelines that were there come first, unchanged, and
    the set has grown by one timeline per [send_keys], [tap], [press] and
    [swipe] and by one per injected finger sequence.  If the identifiers
    were given by position before, they still are, so they remain pairwise
    distinct; this holds from a fresh action set. *)
Theorem gesture_calls_append_only_distinct_ids (self : W3CActions.t)
    (calls : list w3c_gesture_call) :
  let after := W3CActions.data (foldl w3c_gesture_run self calls) in
  (exists new,
     after = W3CActions.data self ++ new /\
     length new = sum_list (map w3c_gesture_count calls)) /\
  (ids_by_position (W3CActions.data self) ->
   ids_by_position after /\ NoDup (map timeline_id after)) /\
  ids_by_position (W3CActions.data W3CActions.init).
Proof.
  cbv zeta. destruct (gesture_calls_append calls self) as (new & Hd & Hl & Hid).
  split; [exists new; split; assumption |].
  split; [| apply ids_by_position_nil].
  intros Hself. split; [apply Hid, Hself |].
  apply ids_by_position_NoDup, Hid, Hself.
Qed.

Lemma gesture_calls_append_only_distinct_ids_witness :
  let calls :=
    [ GTap 1 2 None (1 # 10); GSendKeys "hi";
      GSwipe 0 0 5 5 (Some "E1"%string) (1 # 4) None (1 # 4);
      GPress 3 4 None 2 ] in
  NoDup (map timeline_id
           (W3CActions.data (foldl w3c_gesture_run W3CActions.init calls))) /\
  map timeline_id
    (W3CActions.data (foldl w3c_gesture_run W3CActions.init calls)) =
  [ Some "finger0"; Some "keyboard1"; Some "finger2"; Some "finger3" ].
Proof.
  cbv zeta. split; [| reflexivity].
  exact (proj2 (proj1 (proj2
           (gesture_calls_append_only_distinct_ids W3CActions.init
              [ GTap 1 2 None (1 # 10); GSendKeys "hi";
                GSwipe 0 0 5 5 (Some "E1"%string) (1 # 4) None (1 # 4);
                GPress 3 4 None 2 ]))
           (proj2 (proj2
              (gesture_calls_append_only_distinct_ids W3CActions.init []))))).
Defined.

(** X9. The actions list of the key timeline that [send_keys] appends has
    exactly one element per character of the text, each a generator object
    holding that character's key-down and key-up records; it is the flat
    list of key-down/key-up records only when the text is empty, in which
    case both are empty. *)
Theorem send_keys_flat_only_for_empty_text (self : W3CActions.t) (text : string) :
  let id := "keyboard" +:+ pretty (length (W3CActions.data self)) in
  let chars := String.list_ascii_of_string text in
  W3CActions.data (W3CActions.send_keys self text) =
    W3CActions.data self ++
    [ Wire.key id (map (fun c => VGen [Wire.keyDown c; Wire.keyUp c]) chars) ] /\
  length chars = String.length text /\
  (W3CActions.data (W3CActions.send_keys self text) =
     W3CActions.data self ++
     [ Wire.key id (flat_map (fun c => [Wire.keyDown c; Wire.keyUp c]) chars) ]
   <-> text = EmptyString).
Proof.
  cbv zeta. split; [apply send_keys_data |]. split.
  { induction text as [| c text IH]; cbn; congruence. }
  split.
  - intros H. rewrite send_keys_data in H. apply app_inv_head in H.
    destruct text as [| c text]; [reflexivity |]. exfalso.
    apply (f_equal (fun l => (l !! 0) ≫= (fun tl => field tl "actions"))) in H.
    cbn in H. discriminate H.
  - intros ->. reflexivity.
Qed.

Lemma send_keys_flat_only_for_empty_text_witness :
  W3CActions.data (W3CActions.send_keys W3CActions.init EmptyString) =
  [ Wire.key "keyboard0" [] ].
Proof.
  exact (proj2 (proj2 (proj2
           (send_keys_flat_only_for_empty_text W3CActions.init EmptyString)))
           eq_refl).
Defined.

(** ** Pauses, again *)

Lemma pause_ms_bounds (second : Q) :
  (0 <= pause_ms second)%Q /\
  ((0 <= second)%Q -> (pause_ms second == second * 1000)%Q).
Proof.
  split.
  - unfold pause_ms. destruct (Num.ltb second 0) eqn:E; [discriminate |].
    unfold Num.ltb in E. apply negb_false_iff, Qle_bool_iff in E.
    unfold Num.mul. rewrite Qred_correct.
    apply Qmult_le_0_compat; [exact E | discriminate].
  - intros H. rewrite (pause_ms_nonnegative second H).
    unfold Num.mul. apply Qred_correct.
Qed.

(** X10. The duration a pause stores is never negative, for
    [FingerAction.pause] and [TouchActions.pause] alike: both append a
    primitive with the same number of milliseconds [d >= 0]; for
    [second >= 0] it is [second * 1000], so that [pause(0)] stores zero and
    is not replaced by the default. *)
Theorem stored_pause_is_never_negative (second : Q) :
  exists d,
    (forall self : FingerAction.t,
       FingerAction.data (FingerAction.pause self second) =
       FingerAction.data self ++ [Wire.pause d]) /\
    (forall self : TouchActions.t,
       TouchActions.data (TouchActions.pause self second) =
       TouchActions.data self ++ [Wire.wait d]) /\
    (0 <= d)%Q /\
    ((0 <= second)%Q -> (d == second * 1000)%Q) /\
    ((second == 0)%Q -> d = 0%Q).
Proof.
  exists (pause_ms second). destruct (pause_ms_bounds second) as [Hpos Hval].
  split; [intros self; apply finger_pause_appends |].
  split; [intros self; apply touch_pause_appends |].
  split; [exact Hpos |]. split; [exact Hval |].
  intros H0. unfold pause_ms.
  rewrite ltb_ge by (rewrite H0; apply Qle_refl).
  unfold Num.mul. change 0%Q with (Qred 0). apply Qred_complete.
  rewrite H0. reflexivity.
Qed.

Lemma stored_pause_is_never_negative_witness :
  exists d,
    FingerAction.data (FingerAction.pause FingerAction.init 0) = [Wire.pause d] /\
    TouchActions.data (TouchActions.pause TouchActions.init 0) = [Wire.wait d] /\
    (d == 0 * 1000)%Q /\ d = 0%Q.
Proof.
  destruct (stored_pause_is_never_negative 0%Q) as (d & H1 & H2 & _ & H3 & H4).
  exists d. split; [exact (H1 FingerAction.init) |].
  split; [exact (H2 TouchActions.init) |].
  split; [apply H3; discriminate | apply H4; reflexivity].
Defined.

(** ** Legacy swipe, further *)

Lemma touch_actions_eq (a b : TouchActions.t) :
  TouchActions.data a = TouchActions.data b -> a = b.
Proof. destruct a, b. cbn. intros ->. reflexivity. Qed.

(** X11. In instantaneous mode ([swipe_seconds] is [None]) the legacy
    [swipe] never raises, whatever [delta] is (zero included) and also when
    the start and the end coincide; it appends exactly press at the start,
    pause of [press_seconds], one [moveTo] carrying the end coordinates as
    given, pause of [hold_seconds], and a release when [up] is true. *)
Theorem legacy_swipe_instantaneous_sequence (self : TouchActions.t)
    (from_x from_y to_x to_y : Q) (element_uid : option string)
    (press_seconds delta hold_seconds : Q) (do_up : bool) :
  exists after,
    TouchActions.swipe self from_x from_y to_x to_y element_uid
      press_seconds None delta hold_seconds do_up = Ok after /\
    TouchActions.data after =
      TouchActions.data self ++
      [ Wire.press from_x from_y element_uid; Wire.wait (pause_ms press_seconds);
        Wire.moveTo to_x to_y element_uid; Wire.wait (pause_ms hold_seconds) ] ++
      (if do_up then [Wire.release] else []) /\
    length (TouchActions.data after) =
      length (TouchActions.data self) + 4 + (if do_up then 1 else 0).
Proof.
  destruct (swipe_instantaneous_data self from_x from_y to_x to_y element_uid
              press_seconds delta hold_seconds do_up) as (after & Hrun & Hdata).
  exists after. split; [exact Hrun |]. split; [exact Hdata |].
  rewrite Hdata, !length_app. destruct do_up; cbn; lia.
Qed.

(** X12. What a legacy [swipe] does is independent of what the sequence
    held before: it raises exactly when the same call on an empty sequence
    raises, and otherwise it leaves the earlier primitives in place,
    followed by the primitives the call appends to an empty sequence.  A
    drag made of several [swipe] calls is thus the concatenation of its
    segments. *)
Theorem legacy_swipe_appends_its_own_segment (self : TouchActions.t)
    (from_x from_y to_x to_y : Q) (element_uid : option string)
    (press_seconds : Q) (swipe_seconds : option Q)
    (delta hold_seconds : Q) (do_up : bool) :
  TouchActions.swipe self from_x from_y to_x to_y element_uid
    press_seconds swipe_seconds delta hold_seconds do_up =
  match TouchActions.swipe TouchActions.init from_x from_y to_x to_y element_uid
          press_seconds swipe_seconds delta hold_seconds do_up with
  | Ok segment =>
      Ok (TouchActions.Build (TouchActions.data self ++ TouchActions.data segment))
  | Raise e => Raise e
  end.
Proof.
  destruct swipe_seconds as [swipe_seconds |].
  - destruct (TouchActions.swipe_steps from_x from_y to_x to_y delta)
      as [steps | e] eqn:Hsteps.
    + destruct (Z.eq_dec steps 0%Z) as [-> | Hnz].
      * rewrite !(swipe_zero_steps_raises _ _ _ _ _ _ _ _ _ _ _ Hsteps). reflexivity.
      * destruct (swipe_interpolated_data self from_x from_y to_x to_y element_uid
                    press_seconds swipe_seconds delta hold_seconds do_up steps
                    Hsteps Hnz) as (after & -> & Hafter).
        destruct (swipe_interpolated_data TouchActions.init from_x from_y to_x to_y
                    element_uid press_seconds swipe_seconds delta hold_seconds do_up
                    steps Hsteps Hnz) as (segment & -> & Hsegment).
        f_equal. apply touch_actions_eq. cbn [TouchActions.data].
        rewrite Hafter, Hsegment. reflexivity.
    + unfold TouchActions.swipe. rewrite Hsteps. reflexivity.
  - destruct (swipe_instantaneous_data self from_x from_y to_x to_y element_uid
                press_seconds delta hold_seconds do_up) as (after & -> & Hafter).
    destruct (swipe_instantaneous_data TouchActions.init from_x from_y to_x to_y
                element_uid press_seconds delta hold_seconds do_up)
      as (segment & -> & Hsegment).
    f_equal. apply touch_actions_eq. cbn [TouchActions.data].
    rewrite Hafter, Hsegment. reflexivity.
Qed.

(** * The legacy swipe on Python's numbers: properties *)

(** ** Conversions *)

Lemma float_of_int_in_range (z : Z) :
  (Z.abs z < 2 ^ 1024 - 2 ^ 970)%Z ->
  Py.Num.float_of_int z = Ok (Py.Num.nearest_float z).
Proof.
  intros H. unfold Py.Num.float_of_int.
  destruct (Z.ltb_spec (Z.abs z) (2 ^ 1024 - 2 ^ 970)) as [_ | Hge]; [reflexivity | lia].
Qed.

Lemma float_of_int_Ok (z : Z) (f : float) :
  Py.Num.float_of_int z = Ok f ->
  (Z.abs z < 2 ^ 1024 - 2 ^ 970)%Z /\ f = Py.Num.nearest_float z.
Proof.
  unfold Py.Num.float_of_int.
  destruct (Z.ltb_spec (Z.abs z) (2 ^ 1024 - 2 ^ 970)) as [Hlt | _]; [| discriminate].
  intros [= <-]. split; [exact Hlt | reflexivity].
Qed.

Lemma float_of_int_raises (z : Z) (e : exn) :
  Py.Num.float_of_int z = Raise e -> e = OverflowError.
Proof.
  unfold Py.Num.float_of_int.
  destruct (Z.abs z <? 2 ^ 1024 - 2 ^ 970)%Z; [discriminate | intros [= <-]; reflexivity].
Qed.

Lemma to_float_raises (a : Py.Num.num) (e : exn) :
  Py.Num.to_float a = Raise e -> e = OverflowError.
Proof. destruct a; cbn; [apply float_of_int_raises | discriminate]. Qed.

Lemma digits2_pos_bound (m : positive) : (Z.pos m < 2 ^ Z.pos (digits2_pos m))%Z.
Proof.
  induction m as [m IH | m IH |]; cbn [digits2_pos].
  - rewrite Pos2Z.inj_succ, Z.pow_succ_r, Pos2Z.inj_xI by lia. lia.
  - rewrite Pos2Z.inj_succ, Z.pow_succ_r, Pos2Z.inj_xO by lia. lia.
  - reflexivity.
Qed.

(** An [int] that comes from a double is convertible to a double again. *)
Lemma int_of_float_bound (f : float) (z : Z) :
  Py.Num.int_of_float f = Ok z -> (Z.abs z < 2 ^ 1024 - 2 ^ 970)%Z.
Proof.
  unfold Py.Num.int_of_float. pose proof (Prim2SF_valid f) as Hvalid.
  destruct (Prim2SF f) as [s | s | | s m e]; try discriminate.
  - intros [= <-]. reflexivity.
  - intros [= <-]. cbn in Hvalid. unfold bounded, canonical_mantissa, fexp in Hvalid.
    apply andb_true_iff in Hvalid as [Hcan Hexp].
    apply Z.eqb_eq in Hcan. apply Z.leb_le in Hexp.
    change (emax - prec)%Z with 971%Z in Hexp.
    change (Z.max (Z.pos (digits2_pos m) + e - 53) (-1074) = e) in Hcan.
    pose proof (digits2_pos_bound m) as Hm.
    assert (Hd : (Z.pos (digits2_pos m) <= 53)%Z) by lia.
    assert (Hm53 : (Z.pos m < 2 ^ 53)%Z).
    { eapply Z.lt_le_trans; [exact Hm |]. apply Z.pow_le_mono_r; lia. }
    assert (H1024 : (2 ^ 1024 = 2 ^ 53 * 2 ^ 971)%Z) by reflexivity.
    assert (H971 : (2 ^ 971 = 2 * 2 ^ 970)%Z) by reflexivity.
    assert (H970 : (0 < 2 ^ 970)%Z) by reflexivity.
    assert (Hmag :
      (0 <= (if (0 <=? e)%Z then Z.pos m * 2 ^ e else Z.pos m / 2 ^ (- e))
         <= (2 ^ 53 - 1) * 2 ^ 971)%Z).
    { destruct (Z.leb_spec 0 e) as [He | He].
      - assert (Hp : (0 < 2 ^ e <= 2 ^ 971)%Z).
        { split; [apply Z.pow_pos_nonneg; lia | apply Z.pow_le_mono_r; lia]. }
        split; [nia |].
        apply Z.le_trans with ((2 ^ 53 - 1) * 2 ^ e)%Z; [nia |].
        apply Z.mul_le_mono_nonneg_l; [lia | lia].
      - assert (Hp : (0 < 2 ^ (- e))%Z) by (apply Z.pow_pos_nonneg; lia).
        split; [apply Z.div_pos; lia |].
        apply Z.le_trans with (Z.pos m); [apply Z.div_le_upper_bound; nia |].
        apply Z.le_trans with ((2 ^ 53 - 1) * 1)%Z; [lia |].
        apply Z.mul_le_mono_nonneg_l; lia. }
    destruct s; lia.
Qed.

Lemma binop_raises (int_op : Z -> Z -> Z) (float_op : float -> float -> float)
    (a b : Py.Num.num) (e : exn) :
  Py.Num.binop int_op float_op a b = Raise e -> e = OverflowError.
Proof.
  unfold Py.Num.binop. destruct a as [x | x], b as [y | y]; cbn; try discriminate.
  - destruct (Py.Num.float_of_int x) eqn:E; cbn; [discriminate |].
    intros [= <-]. apply (float_of_int_raises _ _ E).
  - destruct (Py.Num.float_of_int y) eqn:E; cbn; [discriminate |].
    intros [= <-]. apply (float_of_int_raises _ _ E).
Qed.

Lemma add_float_r (a : Py.Num.num) (fa f : float) :
  Py.Num.to_float a = Ok fa ->
  Py.Num.add a (Py.Num.PFloat f) = Ok (Py.Num.PFloat (fa + f)).
Proof.
  intros Ha. unfold Py.Num.add, Py.Num.binop.
  destruct a as [z | g]; rewrite Ha; reflexivity.
Qed.

Lemma mul_int_float (k : Z) (f : float) :
  (Z.abs k < 2 ^ 1024 - 2 ^ 970)%Z ->
  Py.Num.mul (Py.Num.PInt k) (Py.Num.PFloat f) =
  Ok (Py.Num.PFloat (Py.Num.nearest_float k * f)).
Proof.
  intros Hk. unfold Py.Num.mul, Py.Num.binop. cbn [Py.Num.to_float].
  rewrite (float_of_int_in_range k Hk). reflexivity.
Qed.

Lemma swipe_point_in_range (from_x from_y : Py.Num.num) (fx fy : float)
    (k : Z) (dx dy : float) :
  Py.Num.to_float from_x = Ok fx ->
  Py.Num.to_float from_y = Ok fy ->
  (Z.abs k < 2 ^ 1024 - 2 ^ 970)%Z ->
  Py.TouchActions.swipe_point from_x from_y k dx dy =
  Ok (Py.Num.PFloat (fx + Py.Num.nearest_float k * dx),
      Py.Num.PFloat (fy + Py.Num.nearest_float k * dy)).
Proof.
  intros Hx Hy Hk. unfold Py.TouchActions.swipe_point.
  rewrite !(mul_int_float k _ Hk). cbn [mbind result_bind].
  rewrite (add_float_r from_x fx _ Hx). cbn [mbind result_bind].
  rewrite (add_float_r from_y fy _ Hy). reflexivity.
Qed.

Lemma swipe_point_raises (from_x from_y : Py.Num.num) (k : Z) (dx dy : float)
    (e : exn) :
  Py.TouchActions.swipe_point from_x from_y k dx dy = Raise e -> e = OverflowError.
Proof.
  unfold Py.TouchActions.swipe_point.
  destruct (Py.Num.mul (Py.Num.PInt k) (Py.Num.PFloat dx)) as [kdx | e1] eqn:E1;
    cbn [mbind result_bind];
    [| intros [= <-]; apply (binop_raises _ _ _ _ _ E1)].
  destruct (Py.Num.add from_x kdx) as [x | e2] eqn:E2; cbn [mbind result_bind];
    [| intros [= <-]; apply (binop_raises _ _ _ _ _ E2)].
  destruct (Py.Num.mul (Py.Num.PInt k) (Py.Num.PFloat dy)) as [kdy | e3] eqn:E3;
    cbn [mbind result_bind];
    [| intros [= <-]; apply (binop_raises _ _ _ _ _ E3)].
  destruct (Py.Num.add from_y kdy) as [y | e4] eqn:E4; cbn [mbind result_bind];
    [discriminate | intros [= <-]; apply (binop_raises _ _ _ _ _ E4)].
Qed.

(** ** The builders *)

Lemma py_pause_appends (self : Py.TouchActions.t) (second : Py.Num.num) :
  Py.TouchActions.data (Py.TouchActions.pause self second) =
  Py.TouchActions.data self ++ [Py.Shape.wait (Py.pause_ms second)].
Proof.
  unfold Py.TouchActions.pause, Py.pause_ms.
  destruct (Py.Num.ltb0 second); reflexivity.
Qed.

Lemma py_press_shape (x y : Py.Num.num) (element_uid : option string) :
  VDict (Py.TouchPress.data
           (Py.TouchPress.with_origin
              (Py.TouchPress.with_xy Py.TouchPress.init x y) element_uid)) =
  Py.Shape.press x y element_uid.
Proof. destruct element_uid; reflexivity. Qed.

Lemma py_movement_shape (x y : Py.Num.num) (element_uid : option string) :
  VDict (Py.TouchMovement.data
           (Py.TouchMovement.with_origin
              (Py.TouchMovement.with_xy Py.TouchMovement.init x y) element_uid)) =
  Py.Shape.moveTo x y element_uid.
Proof. destruct element_uid; reflexivity. Qed.

Lemma py_move_pause_appends (self : Py.TouchActions.t) (x y : Py.Num.num)
    (element_uid : option string) (second : Py.Num.num) :
  Py.TouchActions.data
    (Py.TouchActions.pause
       (Py.TouchActions.move self
          (Py.TouchMovement.with_origin
             (Py.TouchMovement.with_xy Py.TouchMovement.init x y) element_uid))
       second) =
  Py.TouchActions.data self ++
  [ Py.Shape.moveTo x y element_uid; Py.Shape.wait (Py.pause_ms second) ].
Proof.
  rewrite py_pause_appends.
  cbn [Py.TouchActions.move Py.TouchActions.append Py.TouchActions.data].
  rewrite py_movement_shape, <- app_assoc. reflexivity.
Qed.

Lemma py_press_pause_appends (self : Py.TouchActions.t) (x y : Py.Num.num)
    (element_uid : option string) (second : Py.Num.num) :
  Py.TouchActions.data
    (Py.TouchActions.pause
       (Py.TouchActions.press self
          (Py.TouchPress.with_origin
             (Py.TouchPress.with_xy Py.TouchPress.init x y) element_uid))
       second) =
  Py.TouchActions.data self ++
  [ Py.Shape.press x y element_uid; Py.Shape.wait (Py.pause_ms second) ].
Proof.
  rewrite py_pause_appends.
  cbn [Py.TouchActions.press Py.TouchActions.append Py.TouchActions.data].
  rewrite py_press_shape, <- app_assoc. reflexivity.
Qed.

(** ** The loop *)

Lemma py_loop_returns (from_x from_y : Py.Num.num) (fx fy dx dy interval : float)
    (element_uid : option string) (range : list Z) (self : Py.TouchActions.t) :
  Py.Num.to_float from_x = Ok fx ->
  Py.Num.to_float from_y = Ok fy ->
  Forall (fun i => (Z.abs i < 2 ^ 1024 - 2 ^ 970)%Z) range ->
  exists after,
    Py.TouchActions.swipe_loop self from_x from_y dx dy interval element_uid range =
      Py.TouchActions.Returned after /\
    Py.TouchActions.data after =
      Py.TouchActions.data self ++
      flat_map (fun i =>
                  [ Py.Shape.moveTo
                      (Py.Num.PFloat (fx + Py.Num.nearest_float i * dx))
                      (Py.Num.PFloat (fy + Py.Num.nearest_float i * dy))
                      element_uid;
                    Py.Shape.wait (Py.pause_ms (Py.Num.PFloat interval)) ])
               range.
Proof.
  intros Hx Hy Hrange. revert self.
  induction Hrange as [| i range Hi _ IH]; intros self.
  - exists self. split; [reflexivity |]. cbn. rewrite app_nil_r. reflexivity.
  - cbn [Py.TouchActions.swipe_loop].
    rewrite (swipe_point_in_range from_x from_y fx fy i dx dy Hx Hy Hi).
    destruct (IH (Py.TouchActions.pause
                    (Py.TouchActions.move self
                       (Py.TouchMovement.with_origin
                          (Py.TouchMovement.with_xy Py.TouchMovement.init
                             (Py.Num.PFloat (fx + Py.Num.nearest_float i * dx))
                             (Py.Num.PFloat (fy + Py.Num.nearest_float i * dy)))
                          element_uid))
                    (Py.Num.PFloat interval)))
      as (after & Hrun & Hdata).
    exists after. split; [exact Hrun |].
    rewrite Hdata, py_move_pause_appends. cbn [flat_map].
    rewrite <- !app_assoc. reflexivity.
Qed.

(** Whatever the loop does, it only appends, and it can raise nothing but
    [OverflowError]. *)
Lemma py_loop_outcome (from_x from_y : Py.Num.num) (dx dy interval : float)
    (element_uid : option string) (range : list Z) (self : Py.TouchActions.t) :
  match Py.TouchActions.swipe_loop self from_x from_y dx dy interval
          element_uid range with
  | Py.TouchActions.Returned after =>
      exists new, Py.TouchActions.data after = Py.TouchActions.data self ++ new
  | Py.TouchActions.Raised e after =>
      e = OverflowError /\
      exists new, Py.TouchActions.data after = Py.TouchActions.data self ++ new
  end.
Proof.
  revert self. induction range as [| i range IH]; intros self.
  - cbn. exists []. rewrite app_nil_r. reflexivity.
  - cbn [Py.TouchActions.swipe_loop].
    destruct (Py.TouchActions.swipe_point from_x from_y i dx dy) as [[x y] | e] eqn:E.
    + specialize (IH (Py.TouchActions.pause
                        (Py.TouchActions.move self
                           (Py.TouchMovement.with_origin
                              (Py.TouchMovement.with_xy Py.TouchMovement.init x y)
                              element_uid))
                        (Py.Num.PFloat interval))).
      rewrite py_move_pause_appends in IH.
      destruct (Py.TouchActions.swipe_loop _ from_x from_y dx dy interval
                  element_uid range) as [after | e after].
      * destruct IH as (new & Hnew). eexists. rewrite Hnew, <- app_assoc. reflexivity.
      * destruct IH as (He & new & Hnew). split; [exact He |].
        eexists. rewrite Hnew, <- app_assoc. reflexivity.
    + split; [apply (swipe_point_raises _ _ _ _ _ _ E) |].
      exists []. rewrite app_nil_r. reflexivity.
Qed.

(** ** The step count *)

Lemma pow2_nonnegative (libm_pow : float -> float -> float * Py.Num.errno)
    (a square : Py.Num.num) :
  Py.Num.pow2 libm_pow a = Ok square ->
  match square with
  | Py.Num.PInt m => exists k, a = Py.Num.PInt k /\ m = (k ^ 2)%Z
  | Py.Num.PFloat _ => exists f, a = Py.Num.PFloat f
  end.
Proof.
  destruct a as [k | f]; cbn.
  - intros [= <-]. exists k. split; reflexivity.
  - destruct (Py.Num.float_pow2 libm_pow f); cbn; [| discriminate].
    intros [= <-]. exists f. reflexivity.
Qed.

Lemma square_in_range (k : Z) :
  (Z.abs (k ^ 2) < 2 ^ 1024 - 2 ^ 970)%Z -> (Z.abs k < 2 ^ 1024 - 2 ^ 970)%Z.
Proof. rewrite Z.pow_2_r. nia. Qed.

Lemma sum_of_squares_in_range (libm_pow : float -> float -> float * Py.Num.errno)
    (a b square_a square_b sum : Py.Num.num) (f : float) :
  Py.Num.pow2 libm_pow a = Ok square_a ->
  Py.Num.pow2 libm_pow b = Ok square_b ->
  Py.Num.add square_a square_b = Ok sum ->
  Py.Num.to_float sum = Ok f ->
  (exists fa, Py.Num.to_float a = Ok fa) /\ (exists fb, Py.Num.to_float b = Ok fb).
Proof.
  intros Ha Hb Hsum Hf.
  apply pow2_nonnegative in Ha, Hb.
  unfold Py.Num.add, Py.Num.binop in Hsum.
  destruct square_a as [ma | ga], square_b as [mb | gb].
  - destruct Ha as (ka & -> & ->), Hb as (kb & -> & ->).
    injection Hsum as <-. cbn in Hf. apply float_of_int_Ok in Hf as [Hf _].
    rewrite !Z.pow_2_r in Hf. cbn [Py.Num.to_float].
    split; eexists; apply float_of_int_in_range; nia.
  - destruct Ha as (ka & -> & ->), Hb as (fb & ->).
    cbn [Py.Num.to_float] in Hsum.
    destruct (Py.Num.float_of_int (ka ^ 2)) as [x |] eqn:E; [| discriminate].
    apply float_of_int_Ok in E as [E _]. apply square_in_range in E.
    cbn [Py.Num.to_float]. split; eexists; [apply float_of_int_in_range, E | reflexivity].
  - destruct Ha as (fa & ->), Hb as (kb & -> & ->).
    cbn [Py.Num.to_float mbind result_bind] in Hsum.
    destruct (Py.Num.float_of_int (kb ^ 2)) as [x |] eqn:E; [| discriminate].
    apply float_of_int_Ok in E as [E _]. apply square_in_range in E.
    cbn [Py.Num.to_float]. split; eexists; [reflexivity | apply float_of_int_in_range, E].
  - destruct Ha as (fa & ->), Hb as (fb & ->). cbn. split; eexists; reflexivity.
Qed.

(** When the step count is computed, the two spans are known and convert to
    doubles, and the step count converts to a double. *)
Lemma swipe_steps_inv (libm_pow : float -> float -> float * Py.Num.errno)
    (from_x from_y to_x to_y delta : Py.Num.num) (steps : Z) :
  Py.TouchActions.swipe_steps libm_pow from_x from_y to_x to_y delta = Ok steps ->
  (exists span_x sx,
     Py.Num.sub to_x from_x = Ok span_x /\ Py.Num.to_float span_x = Ok sx) /\
  (exists span_y sy,
     Py.Num.sub to_y from_y = Ok span_y /\ Py.Num.to_float span_y = Ok sy) /\
  (Z.abs steps < 2 ^ 1024 - 2 ^ 970)%Z.
Proof.
  unfold Py.TouchActions.swipe_steps. intros H.
  destruct (Py.Num.sub to_y from_y) as [span_y |] eqn:Hsy; [| discriminate].
  cbn [mbind result_bind] in H.
  destruct (Py.Num.pow2 libm_pow span_y) as [square_y |] eqn:Hqy; [| discriminate].
  cbn [mbind result_bind] in H.
  destruct (Py.Num.sub to_x from_x) as [span_x |] eqn:Hsx; [| discriminate].
  cbn [mbind result_bind] in H.
  destruct (Py.Num.pow2 libm_pow span_x) as [square_x |] eqn:Hqx; [| discriminate].
  cbn [mbind result_bind] in H.
  destruct (Py.Num.add square_y square_x) as [sum |] eqn:Hsum; [| discriminate].
  cbn [mbind result_bind] in H.
  destruct (Py.Num.sqrt sum) as [distance |] eqn:Hsqrt; [| discriminate].
  cbn [mbind result_bind] in H.
  destruct (Py.Num.truediv distance delta) as [quotient |] eqn:Hq; [| discriminate].
  cbn [mbind result_bind] in H.
  unfold Py.Num.sqrt in Hsqrt.
  destruct (Py.Num.to_float sum) as [f |] eqn:Hf; [| discriminate].
  destruct (sum_of_squares_in_range libm_pow _ _ _ _ _ _ Hqy Hqx Hsum Hf)
    as [(sy & Hy) (sx & Hx)].
  split; [exists span_x, sx; split; [reflexivity | exact Hx] |].
  split; [exists span_y, sy; split; [reflexivity | exact Hy] |].
  apply (int_of_float_bound _ _ H).
Qed.

Lemma truediv_by_steps (a : float) (steps : Z) :
  (Z.abs steps < 2 ^ 1024 - 2 ^ 970)%Z ->
  Py.Num.truediv a (Py.Num.PInt steps) =
  if (steps =? 0)%Z then Raise ZeroDivisionError
  else Ok (a / Py.Num.nearest_float steps)%float.
Proof.
  intros H. unfold Py.Num.truediv. cbn [Py.Num.to_float Py.Num.is_zero].
  rewrite (float_of_int_in_range steps H). reflexivity.
Qed.

(** ** The interpolated branch *)

Lemma py_swipe_interpolated (libm_pow : float -> float -> float * Py.Num.errno)
    (self : Py.TouchActions.t) (from_x from_y to_x to_y : Py.Num.num)
    (element_uid : option string)
    (press_seconds swipe_seconds delta hold_seconds : Py.Num.num)
    (do_up : bool) (steps : Z) (fx fy seconds : float) :
  Py.TouchActions.swipe_steps libm_pow from_x from_y to_x to_y delta = Ok steps ->
  steps <> 0%Z ->
  Py.Num.to_float from_x = Ok fx ->
  Py.Num.to_float from_y = Ok fy ->
  Py.Num.to_float swipe_seconds = Ok seconds ->
  exists dx dy interval after,
    Py.TouchActions.swipe_increment from_x to_x steps = Ok dx /\
    Py.TouchActions.swipe_increment from_y to_y steps = Ok dy /\
    Py.Num.truediv seconds (Py.Num.PInt steps) = Ok interval /\
    Py.TouchActions.swipe libm_pow self from_x from_y to_x to_y element_uid
      press_seconds (Some swipe_seconds) delta hold_seconds do_up =
      Py.TouchActions.Returned after /\
    Py.TouchActions.data after =
      Py.TouchActions.data self ++
      [ Py.Shape.press from_x from_y element_uid;
        Py.Shape.wait (Py.pause_ms press_seconds) ] ++
      flat_map (fun i =>
                  [ Py.Shape.moveTo
                      (Py.Num.PFloat (fx + Py.Num.nearest_float i * dx))
                      (Py.Num.PFloat (fy + Py.Num.nearest_float i * dy))
                      element_uid;
                    Py.Shape.wait (Py.pause_ms (Py.Num.PFloat interval)) ])
               (seqZ 1 steps) ++
      [ Py.Shape.moveTo
          (Py.Num.PFloat (fx + Py.Num.nearest_float steps * dx))
          (Py.Num.PFloat (fy + Py.Num.nearest_float steps * dy))
          element_uid;
        Py.Shape.wait (Py.pause_ms hold_seconds) ] ++
      (if do_up then [Wire.release] else []).
Proof.
  intros Hsteps Hnz Hx Hy Hseconds.
  destruct (swipe_steps_inv _ _ _ _ _ _ _ Hsteps)
    as ((span_x & sx & Hspan_x & Hsx) & (span_y & sy & Hspan_y & Hsy) & Hbound).
  assert (Hz : (steps =? 0)%Z = false) by (apply Z.eqb_neq, Hnz).
  assert (Hdx : Py.TouchActions.swipe_increment from_x to_x steps =
                Ok (sx / Py.Num.nearest_float steps)%float).
  { unfold Py.TouchActions.swipe_increment. rewrite Hspan_x. cbn [mbind result_bind].
    rewrite Hsx. cbn [mbind result_bind]. rewrite (truediv_by_steps _ _ Hbound), Hz.
    reflexivity. }
  assert (Hdy : Py.TouchActions.swipe_increment from_y to_y steps =
                Ok (sy / Py.Num.nearest_float steps)%float).
  { unfold Py.TouchActions.swipe_increment. rewrite Hspan_y. cbn [mbind result_bind].
    rewrite Hsy. cbn [mbind result_bind]. rewrite (truediv_by_steps _ _ Hbound), Hz.
    reflexivity. }
  assert (Hint : Py.Num.truediv seconds (Py.Num.PInt steps) =
                 Ok (seconds / Py.Num.nearest_float steps)%float).
  { rewrite (truediv_by_steps _ _ Hbound), Hz. reflexivity. }
  set (dx := (sx / Py.Num.nearest_float steps)%float) in *.
  set (dy := (sy / Py.Num.nearest_float steps)%float) in *.
  set (interval := (seconds / Py.Num.nearest_float steps)%float) in *.
  assert (Hrange : Forall (fun i => (Z.abs i < 2 ^ 1024 - 2 ^ 970)%Z) (seqZ 1 steps)).
  { apply Forall_forall. intros i Hi. apply elem_of_seqZ in Hi. lia. }
  destruct (py_loop_returns from_x from_y fx fy dx dy interval element_uid
              (seqZ 1 steps)
              (Py.TouchActions.pause
                 (Py.TouchActions.press self
                    (Py.TouchPress.with_origin
                       (Py.TouchPress.with_xy Py.TouchPress.init from_x from_y)
                       element_uid))
                 press_seconds)
              Hx Hy Hrange) as (looped & Hloop & Hlooped).
  rewrite py_press_pause_appends in Hlooped.
  pose proof (swipe_point_in_range from_x from_y fx fy steps dx dy Hx Hy Hbound)
    as Hpoint.
  eexists dx, dy, interval, _.
  split; [exact Hdx |]. split; [exact Hdy |]. split; [exact Hint |].
  split.
  - unfold Py.TouchActions.swipe. rewrite Hsteps. cbn [mbind result_bind].
    rewrite Hdx. cbn [mbind result_bind]. rewrite Hdy. cbn [mbind result_bind].
    rewrite Hseconds. cbn [mbind result_bind]. rewrite Hint. cbn [mbind result_bind].
    rewrite Hloop, Hpoint. reflexivity.
  - destruct do_up.
    + cbn [Py.TouchActions.up Py.TouchActions.append Py.TouchActions.data].
      rewrite py_move_pause_appends, Hlooped, <- !app_assoc. reflexivity.
    + rewrite py_move_pause_appends, Hlooped, <- !app_assoc, app_nil_r. reflexivity.
Qed.

(** C3, as amended.  In interpolated mode with
    [steps = int(distance / delta) >= 1], when [from_x], [from_y] and
    [swipe_seconds] are floats or ints within the range of a double,
    [TouchActions.swipe] returns and appends exactly: press at the start,
    pause of [press_seconds], then for [i = 1 .. steps] a move to
    [(from_x + i * dx, from_y + i * dy)] followed by a pause of
    [interval = float(swipe_seconds) / steps], then one more move to
    [(from_x + steps * dx, from_y + steps * dy)], a pause of [hold_seconds],
    and a release when [up] is true; here [dx = float(to_x - from_x) / steps],
    [dy = float(to_y - from_y) / steps], and all the arithmetic is Python's,
    in doubles, for every C library.  In particular
    [swipe(0, 0, 100, 0, swipe_seconds=1.0, delta=10)] has 10 steps, 10
    intermediate moves at [x = 10.0, 20.0, ..., 100.0] each followed by a
    wait of 100.0 ms, the fifth of them at [x = 50.0], and the landing move
    at [x = 100.0]. *)
Theorem legacy_swipe_interpolated_sequence :
  (forall (libm_pow : float -> float -> float * Py.Num.errno)
          (self : Py.TouchActions.t) (from_x from_y to_x to_y : Py.Num.num)
          (element_uid : option string)
          (press_seconds swipe_seconds delta hold_seconds : Py.Num.num)
          (do_up : bool) (steps : Z) (fx fy seconds : float),
     Py.TouchActions.swipe_steps libm_pow from_x from_y to_x to_y delta = Ok steps ->
     (1 <= steps)%Z ->
     Py.Num.to_float from_x = Ok fx ->
     Py.Num.to_float from_y = Ok fy ->
     Py.Num.to_float swipe_seconds = Ok seconds ->
     exists dx dy interval after,
       Py.TouchActions.swipe_increment from_x to_x steps = Ok dx /\
       Py.TouchActions.swipe_increment from_y to_y steps = Ok dy /\
       Py.Num.truediv seconds (Py.Num.PInt steps) = Ok interval /\
       Py.TouchActions.swipe libm_pow self from_x from_y to_x to_y element_uid
         press_seconds (Some swipe_seconds) delta hold_seconds do_up =
         Py.TouchActions.Returned after /\
       Py.TouchActions.data after =
         Py.TouchActions.data self ++
         [ Py.Shape.press from_x from_y element_uid;
           Py.Shape.wait (Py.pause_ms press_seconds) ] ++
         flat_map (fun i =>
                     [ Py.Shape.moveTo
                         (Py.Num.PFloat (fx + Py.Num.nearest_float i * dx))
                         (Py.Num.PFloat (fy + Py.Num.nearest_float i * dy))
                         element_uid;
                       Py.Shape.wait (Py.pause_ms (Py.Num.PFloat interval)) ])
                  (seqZ 1 steps) ++
         [ Py.Shape.moveTo
             (Py.Num.PFloat (fx + Py.Num.nearest_float steps * dx))
             (Py.Num.PFloat (fy + Py.Num.nearest_float steps * dy))
             element_uid;
           Py.Shape.wait (Py.pause_ms hold_seconds) ] ++
         (if do_up then [Wire.release] else [])) /\
  (forall libm_pow : float -> float -> float * Py.Num.errno,
     Py.TouchActions.swipe_steps libm_pow (Py.Num.PInt 0) (Py.Num.PInt 0)
       (Py.Num.PInt 100) (Py.Num.PInt 0) (Py.Num.PInt 10) = Ok 10%Z /\
     seqZ 1 10 = [1; 2; 3; 4; 5; 6; 7; 8; 9; 10]%Z /\
     exists after,
       Py.TouchActions.swipe libm_pow Py.TouchActions.init
         (Py.Num.PInt 0) (Py.Num.PInt 0) (Py.Num.PInt 100) (Py.Num.PInt 0) None
         (Py.Num.PFloat 0.25) (Some (Py.Num.PFloat 1)) (Py.Num.PInt 10)
         (Py.Num.PFloat 0.25) true = Py.TouchActions.Returned after /\
       Py.TouchActions.data after =
         [ Py.Shape.press (Py.Num.PInt 0) (Py.Num.PInt 0) None;
           Py.Shape.wait (Py.Num.PFloat 250) ] ++
         flat_map (fun x =>
                     [ Py.Shape.moveTo (Py.Num.PFloat x) (Py.Num.PFloat 0) None;
                       Py.Shape.wait (Py.Num.PFloat 100) ])
                  [10; 20; 30; 40; 50; 60; 70; 80; 90; 100]%float ++
         [ Py.Shape.moveTo (Py.Num.PFloat 100) (Py.Num.PFloat 0) None;
           Py.Shape.wait (Py.Num.PFloat 250); Wire.release ] /\
       Py.TouchActions.data after !! (2 + 2 * 4) =
         Some (Py.Shape.moveTo (Py.Num.PFloat 50) (Py.Num.PFloat 0) None) /\
       Py.TouchActions.data after !! (2 + 2 * 10) =
         Some (Py.Shape.moveTo (Py.Num.PFloat 100) (Py.Num.PFloat 0) None) /\
       length (Py.TouchActions.data after) = 2 + 2 * 10 + 3).
Proof.
  split.
  { intros libm_pow self from_x from_y to_x to_y element_uid
           press_seconds swipe_seconds delta hold_seconds do_up steps fx fy seconds
           Hsteps Hge Hx Hy Hseconds.
    apply (py_swipe_interpolated libm_pow self from_x from_y to_x to_y element_uid
             press_seconds swipe_seconds delta hold_seconds do_up steps fx fy seconds
             Hsteps); [lia | assumption | assumption | assumption]. }
  intros libm_pow. split; [reflexivity |]. split; [reflexivity |].
  eexists. split; [reflexivity |]. repeat split; reflexivity.
Qed.

(** C3 as first stated, for every call with [steps >= 1], fails at
    [swipe(0, 0, 100, 0, swipe_seconds=10**400, delta=10)]: the step count
    is 10, but [float(swipe_seconds)] raises [OverflowError] and the call
    returns nothing, leaving the sequence empty. *)
Lemma legacy_swipe_interpolated_sequence_counterexample :
  Py.TouchActions.swipe_steps Py.rounding_pow (Py.Num.PInt 0) (Py.Num.PInt 0)
    (Py.Num.PInt 100) (Py.Num.PInt 0) (Py.Num.PInt 10) = Ok 10%Z /\
  (1 <= 10)%Z /\
  Py.TouchActions.swipe Py.rounding_pow Py.TouchActions.init
    (Py.Num.PInt 0) (Py.Num.PInt 0) (Py.Num.PInt 100) (Py.Num.PInt 0) None
    (Py.Num.PFloat 0.25) (Some (Py.Num.PInt (10 ^ 400))) (Py.Num.PInt 10)
    (Py.Num.PFloat 0.25) true =
    Py.TouchActions.Raised OverflowError Py.TouchActions.init /\
  Py.TouchActions.data Py.TouchActions.init = [] /\
  ~ (exists after,
       Py.TouchActions.swipe Py.rounding_pow Py.TouchActions.init
         (Py.Num.PInt 0) (Py.Num.PInt 0) (Py.Num.PInt 100) (Py.Num.PInt 0) None
         (Py.Num.PFloat 0.25) (Some (Py.Num.PInt (10 ^ 400))) (Py.Num.PInt 10)
         (Py.Num.PFloat 0.25) true = Py.TouchActions.Returned after).
Proof.
  assert (Hraise :
    Py.TouchActions.swipe Py.rounding_pow Py.TouchActions.init
      (Py.Num.PInt 0) (Py.Num.PInt 0) (Py.Num.PInt 100) (Py.Num.PInt 0) None
      (Py.Num.PFloat 0.25) (Some (Py.Num.PInt (10 ^ 400))) (Py.Num.PInt 10)
      (Py.Num.PFloat 0.25) true =
    Py.TouchActions.Raised OverflowError Py.TouchActions.init)
    by (vm_compute; reflexivity).
  split; [vm_compute; reflexivity |]. split; [lia |]. split; [exact Hraise |].
  split; [reflexivity |].
  intros (after & Hafter). rewrite Hraise in Hafter. discriminate Hafter.
Qed.

Lemma legacy_swipe_interpolated_sequence_witness :
  Py.TouchActions.swipe_steps Py.rounding_pow (Py.Num.PInt 0) (Py.Num.PFloat 0)
    (Py.Num.PInt 3) (Py.Num.PInt 4) (Py.Num.PInt 2) = Ok 2%Z /\
  (1 <= 2)%Z /\
  Py.Num.to_float (Py.Num.PInt 0) = Ok 0%float /\
  Py.Num.to_float (Py.Num.PFloat 0) = Ok 0%float /\
  Py.Num.to_float (Py.Num.PFloat 0.5) = Ok 0.5%float /\
  exists after,
    Py.TouchActions.swipe Py.rounding_pow Py.TouchActions.init
      (Py.Num.PInt 0) (Py.Num.PFloat 0) (Py.Num.PInt 3) (Py.Num.PInt 4)
      (Some "E1"%string) (Py.Num.PInt 1) (Some (Py.Num.PFloat 0.5)) (Py.Num.PInt 2)
      (Py.Num.PFloat 0.25) false = Py.TouchActions.Returned after /\
    Py.TouchActions.data after =
      [ Py.Shape.press (Py.Num.PInt 0) (Py.Num.PFloat 0) (Some "E1"%string);
        Py.Shape.wait (Py.Num.PInt 1000);
        Py.Shape.moveTo (Py.Num.PFloat 1.5) (Py.Num.PFloat 2) (Some "E1"%string);
        Py.Shape.wait (Py.Num.PFloat 250);
        Py.Shape.moveTo (Py.Num.PFloat 3) (Py.Num.PFloat 4) (Some "E1"%string);
        Py.Shape.wait (Py.Num.PFloat 250);
        Py.Shape.moveTo (Py.Num.PFloat 3) (Py.Num.PFloat 4) (Some "E1"%string);
        Py.Shape.wait (Py.Num.PFloat 250) ].
Proof.
  assert (Hsteps :
    Py.TouchActions.swipe_steps Py.rounding_pow (Py.Num.PInt 0) (Py.Num.PFloat 0)
      (Py.Num.PInt 3) (Py.Num.PInt 4) (Py.Num.PInt 2) = Ok 2%Z)
    by (vm_compute; reflexivity).
  assert (Hge : (1 <= 2)%Z) by lia.
  assert (Hx : Py.Num.to_float (Py.Num.PInt 0) = Ok 0%float) by (vm_compute; reflexivity).
  assert (Hy : Py.Num.to_float (Py.Num.PFloat 0) = Ok 0%float) by reflexivity.
  assert (Hs : Py.Num.to_float (Py.Num.PFloat 0.5) = Ok 0.5%float) by reflexivity.
  split; [exact Hsteps |]. split; [exact Hge |]. split; [exact Hx |].
  split; [exact Hy |]. split; [exact Hs |].
  destruct (proj1 legacy_swipe_interpolated_sequence Py.rounding_pow
              Py.TouchActions.init (Py.Num.PInt 0) (Py.Num.PFloat 0)
              (Py.Num.PInt 3) (Py.Num.PInt 4) (Some "E1"%string) (Py.Num.PInt 1)
              (Py.Num.PFloat 0.5) (Py.Num.PInt 2) (Py.Num.PFloat 0.25) false 2%Z
              0%float 0%float 0.5%float Hsteps Hge Hx Hy Hs)
    as (dx & dy & interval & after & Hdx & Hdy & Hint & Hrun & Hdata).
  exists after. split; [exact Hrun |].
  assert (Edx : dx = 1.5%float) by (vm_compute in Hdx; congruence).
  assert (Edy : dy = 2%float) by (vm_compute in Hdy; congruence).
  assert (Eint : interval = 0.25%float) by (vm_compute in Hint; congruence).
  rewrite Hdata, Edx, Edy, Eint. vm_compute. reflexivity.
Defined.

Lemma interpolation_lookup (f g : Z -> value) (range : list Z) (k : nat) (i : Z) :
  range !! k = Some i ->
  flat_map (fun i => [f i; g i]) range !! (2 * k) = Some (f i) /\
  flat_map (fun i => [f i; g i]) range !! (2 * k + 1) = Some (g i).
Proof.
  revert k. induction range as [| j range IH]; intros k Hk.
  - rewrite lookup_nil in Hk. discriminate.
  - destruct k as [| k].
    + injection Hk as ->. split; reflexivity.
    + cbn in Hk. apply IH in Hk as [H1 H2].
      replace (2 * S k) with (S (S (2 * k))) by lia.
      replace (S (S (2 * k)) + 1) with (S (S (2 * k + 1))) by lia.
      split; [exact H1 | exact H2].
Qed.

Lemma interpolated_segment_lookup (before : list value) (p w : value)
    (f g : Z -> value) (steps : Z) (rest : list value) (i : Z) :
  (1 <= i <= steps)%Z ->
  let l := before ++ [p; w] ++ flat_map (fun i => [f i; g i]) (seqZ 1 steps) ++ rest in
  l !! (length before + 2 + 2 * Z.to_nat (i - 1)) = Some (f i) /\
  l !! (length before + 3 + 2 * Z.to_nat (i - 1)) = Some (g i).
Proof.
  intros Hi l. subst l.
  assert (Hk : seqZ 1 steps !! Z.to_nat (i - 1) = Some i).
  { rewrite lookup_seqZ_lt by lia. f_equal. lia. }
  destruct (interpolation_lookup f g _ _ _ Hk) as [H1 H2].
  split.
  - rewrite lookup_app_r by lia.
    replace (length before + 2 + 2 * Z.to_nat (i - 1) - length before)
      with (2 + 2 * Z.to_nat (i - 1)) by lia.
    cbn [app]. change ((?a :: ?b :: ?t) !! (2 + ?k)) with (t !! k).
    apply lookup_app_l_Some, H1.
  - rewrite lookup_app_r by lia.
    replace (length before + 3 + 2 * Z.to_nat (i - 1) - length before)
      with (2 + (2 * Z.to_nat (i - 1) + 1)) by lia.
    cbn [app]. change ((?a :: ?b :: ?t) !! (2 + ?k)) with (t !! k).
    apply lookup_app_l_Some, H2.
Qed.

(** X13. Whenever the computed step count is 0, a timed legacy [swipe]
    raises [ZeroDivisionError] and appends nothing, for every kind of
    number and every C library: the division by [steps] that computes [dx]
    comes before the first append.  This covers start == end and every swipe
    whose double quotient [distance / delta] is below 1, underflow of the
    squares included. *)
Theorem py_swipe_zero_steps_raises
    (libm_pow : float -> float -> float * Py.Num.errno)
    (self : Py.TouchActions.t) (from_x from_y to_x to_y : Py.Num.num)
    (element_uid : option string)
    (press_seconds swipe_seconds delta hold_seconds : Py.Num.num) (do_up : bool) :
  Py.TouchActions.swipe_steps libm_pow from_x from_y to_x to_y delta = Ok 0%Z ->
  Py.TouchActions.swipe libm_pow self from_x from_y to_x to_y element_uid
    press_seconds (Some swipe_seconds) delta hold_seconds do_up =
  Py.TouchActions.Raised ZeroDivisionError self.
Proof.
  intros Hsteps.
  destruct (swipe_steps_inv _ _ _ _ _ _ _ Hsteps)
    as ((span_x & sx & Hspan_x & Hsx) & _ & Hbound).
  assert (Hdx : Py.TouchActions.swipe_increment from_x to_x 0 =
                Raise ZeroDivisionError).
  { unfold Py.TouchActions.swipe_increment. rewrite Hspan_x.
    cbn [mbind result_bind]. rewrite Hsx. cbn [mbind result_bind].
    rewrite (truediv_by_steps _ _ Hbound). reflexivity. }
  unfold Py.TouchActions.swipe. rewrite Hsteps. cbn [mbind result_bind].
  rewrite Hdx. reflexivity.
Qed.

Lemma py_swipe_zero_steps_raises_witness :
  Py.TouchActions.swipe_steps Py.rounding_pow (Py.Num.PInt 0) (Py.Num.PInt 0)
    (Py.Num.PFloat 0x1p-600) (Py.Num.PInt 0) (Py.Num.PFloat 0x1p-600) = Ok 0%Z /\
  Py.TouchActions.swipe Py.rounding_pow Py.TouchActions.init
    (Py.Num.PInt 0) (Py.Num.PInt 0) (Py.Num.PFloat 0x1p-600) (Py.Num.PInt 0) None
    (Py.Num.PFloat 0.25) (Some (Py.Num.PFloat 1)) (Py.Num.PFloat 0x1p-600)
    (Py.Num.PFloat 0.25) true =
  Py.TouchActions.Raised ZeroDivisionError Py.TouchActions.init.
Proof.
  assert (Hsteps :
    Py.TouchActions.swipe_steps Py.rounding_pow (Py.Num.PInt 0) (Py.Num.PInt 0)
      (Py.Num.PFloat 0x1p-600) (Py.Num.PInt 0) (Py.Num.PFloat 0x1p-600) = Ok 0%Z)
    by (vm_compute; reflexivity).
  split; [exact Hsteps |].
  exact (py_swipe_zero_steps_raises Py.rounding_pow Py.TouchActions.init
           (Py.Num.PInt 0) (Py.Num.PInt 0) (Py.Num.PFloat 0x1p-600) (Py.Num.PInt 0)
           None (Py.Num.PFloat 0.25) (Py.Num.PFloat 1) (Py.Num.PFloat 0x1p-600)
           (Py.Num.PFloat 0.25) true Hsteps).
Defined.

(** X14. A legacy [swipe] that raises never loses what the sequence held:
    the earlier primitives are still there, in place.  When the exception
    is [ZeroDivisionError] or [ValueError] nothing at all has been appended;
    only an [OverflowError] can leave a partial gesture behind, as
    [swipe(10**400, 0, 10**400 + 100, 0, swipe_seconds=1.0)] does, which
    raises in the loop after the press and its pause were appended. *)
Theorem py_swipe_raise_keeps_earlier_primitives :
  (forall (libm_pow : float -> float -> float * Py.Num.errno)
          (self after : Py.TouchActions.t) (from_x from_y to_x to_y : Py.Num.num)
          (element_uid : option string) (press_seconds : Py.Num.num)
          (swipe_seconds : option Py.Num.num) (delta hold_seconds : Py.Num.num)
          (do_up : bool) (e : exn),
     Py.TouchActions.swipe libm_pow self from_x from_y to_x to_y element_uid
       press_seconds swipe_seconds delta hold_seconds do_up =
       Py.TouchActions.Raised e after ->
     (exists new,
        Py.TouchActions.data after = Py.TouchActions.data self ++ new) /\
     (e <> OverflowError -> after = self)) /\
  (exists after,
     Py.TouchActions.swipe Py.rounding_pow Py.TouchActions.init
       (Py.Num.PInt (10 ^ 400)) (Py.Num.PInt 0) (Py.Num.PInt (10 ^ 400 + 100))
       (Py.Num.PInt 0) None (Py.Num.PFloat 0.25) (Some (Py.Num.PFloat 1))
       (Py.Num.PInt 10) (Py.Num.PFloat 0.25) true =
       Py.TouchActions.Raised OverflowError after /\
     Py.TouchActions.data after =
       [ Py.Shape.press (Py.Num.PInt (10 ^ 400)) (Py.Num.PInt 0) None;
         Py.Shape.wait (Py.Num.PFloat 250) ]).
Proof.
  split.
  - intros libm_pow self after from_x from_y to_x to_y element_uid press_seconds
           swipe_seconds delta hold_seconds do_up e.
    unfold Py.TouchActions.swipe. destruct swipe_seconds as [swipe_seconds |];
      [| discriminate].
    match goal with
    | |- match ?inc with _ => _ end = _ -> _ =>
        destruct inc as [[[[steps dx] dy] interval] | e0]
    end.
    + pose proof (py_loop_outcome from_x from_y dx dy interval element_uid
                    (seqZ 1 steps)
                    (Py.TouchActions.pause
                       (Py.TouchActions.press self
                          (Py.TouchPress.with_origin
                             (Py.TouchPress.with_xy Py.TouchPress.init from_x from_y)
                             element_uid))
                       press_seconds)) as Hloop.
      rewrite py_press_pause_appends in Hloop.
      destruct (Py.TouchActions.swipe_loop _ from_x from_y dx dy interval element_uid
                  (seqZ 1 steps)) as [looped | e1 looped].
      * destruct (Py.TouchActions.swipe_point from_x from_y steps dx dy)
          as [[x y] | e2] eqn:Hpoint; [discriminate |].
        intros [= <- <-]. destruct Hloop as (new & Hnew). split.
        -- eexists. rewrite Hnew, <- app_assoc. reflexivity.
        -- intros Hne. destruct (Hne (swipe_point_raises _ _ _ _ _ _ Hpoint)).
      * intros [= <- <-]. destruct Hloop as (He & new & Hnew). split.
        -- eexists. rewrite Hnew, <- app_assoc. reflexivity.
        -- intros Hne. destruct (Hne He).
    + intros [= <- <-]. split; [exists []; rewrite app_nil_r; reflexivity |].
      intros _. reflexivity.
  - eexists. split; vm_compute; reflexivity.
Qed.

Lemma py_swipe_raise_keeps_earlier_primitives_witness :
  exists new,
    Py.TouchActions.data
      (Py.TouchActions.pause Py.TouchActions.init (Py.Num.PInt 1)) =
    Py.TouchActions.data
      (Py.TouchActions.pause Py.TouchActions.init (Py.Num.PInt 1)) ++ new.
Proof.
  refine (proj1 (proj1 py_swipe_raise_keeps_earlier_primitives
                   Py.rounding_pow
                   (Py.TouchActions.pause Py.TouchActions.init (Py.Num.PInt 1))
                   (Py.TouchActions.pause Py.TouchActions.init (Py.Num.PInt 1))
                   (Py.Num.PInt 0) (Py.Num.PInt 0) (Py.Num.PInt 0) (Py.Num.PInt 0)
                   None (Py.Num.PFloat 0.25) (Some (Py.Num.PFloat 1))
                   (Py.Num.PInt 10) (Py.Num.PFloat 0.25) true ZeroDivisionError _)).
  vm_compute. reflexivity.
Defined.

(** X15. With a negative step count (a negative [delta] on a swipe whose
    double quotient [distance / delta] is at most -1) a timed legacy
    [swipe] does not interpolate: when [from_x], [from_y] and
    [swipe_seconds] fit a double it returns with press, pause, a single
    [moveTo] at [(from_x + steps * dx, from_y + steps * dy)], pause, and a
    release when [up] is true, whatever [swipe_seconds] is. *)
Theorem py_swipe_negative_steps_do_not_interpolate
    (libm_pow : float -> float -> float * Py.Num.errno)
    (self : Py.TouchActions.t) (from_x from_y to_x to_y : Py.Num.num)
    (element_uid : option string)
    (press_seconds swipe_seconds delta hold_seconds : Py.Num.num)
    (do_up : bool) (steps : Z) (fx fy seconds : float) :
  Py.TouchActions.swipe_steps libm_pow from_x from_y to_x to_y delta = Ok steps ->
  (steps < 0)%Z ->
  Py.Num.to_float from_x = Ok fx ->
  Py.Num.to_float from_y = Ok fy ->
  Py.Num.to_float swipe_seconds = Ok seconds ->
  exists dx dy after,
    Py.TouchActions.swipe_increment from_x to_x steps = Ok dx /\
    Py.TouchActions.swipe_increment from_y to_y steps = Ok dy /\
    Py.TouchActions.swipe libm_pow self from_x from_y to_x to_y element_uid
      press_seconds (Some swipe_seconds) delta hold_seconds do_up =
      Py.TouchActions.Returned after /\
    Py.TouchActions.data after =
      Py.TouchActions.data self ++
      [ Py.Shape.press from_x from_y element_uid;
        Py.Shape.wait (Py.pause_ms press_seconds);
        Py.Shape.moveTo
          (Py.Num.PFloat (fx + Py.Num.nearest_float steps * dx))
          (Py.Num.PFloat (fy + Py.Num.nearest_float steps * dy))
          element_uid;
        Py.Shape.wait (Py.pause_ms hold_seconds) ] ++
      (if do_up then [Wire.release] else []).
Proof.
  intros Hsteps Hneg Hx Hy Hseconds.
  destruct (py_swipe_interpolated libm_pow self from_x from_y to_x to_y element_uid
              press_seconds swipe_seconds delta hold_seconds do_up steps fx fy seconds
              Hsteps ltac:(lia) Hx Hy Hseconds)
    as (dx & dy & interval & after & Hdx & Hdy & _ & Hrun & Hdata).
  exists dx, dy, after. split; [exact Hdx |]. split; [exact Hdy |].
  split; [exact Hrun |]. rewrite Hdata, (seqZ_nil 1 steps) by lia. reflexivity.
Qed.

Lemma py_swipe_negative_steps_do_not_interpolate_witness :
  exists after,
    Py.TouchActions.swipe Py.rounding_pow Py.TouchActions.init
      (Py.Num.PInt 0) (Py.Num.PInt 0) (Py.Num.PInt 100) (Py.Num.PInt 0) None
      (Py.Num.PFloat 0.25) (Some (Py.Num.PFloat 1)) (Py.Num.PInt (-10))
      (Py.Num.PFloat 0.25) true = Py.TouchActions.Returned after /\
    Py.TouchActions.data after =
      [ Py.Shape.press (Py.Num.PInt 0) (Py.Num.PInt 0) None;
        Py.Shape.wait (Py.Num.PFloat 250);
        Py.Shape.moveTo (Py.Num.PFloat 100) (Py.Num.PFloat 0) None;
        Py.Shape.wait (Py.Num.PFloat 250); Wire.release ].
Proof.
  assert (Hsteps :
    Py.TouchActions.swipe_steps Py.rounding_pow (Py.Num.PInt 0) (Py.Num.PInt 0)
      (Py.Num.PInt 100) (Py.Num.PInt 0) (Py.Num.PInt (-10)) = Ok (-10)%Z)
    by (vm_compute; reflexivity).
  assert (Hneg : (-10 < 0)%Z) by lia.
  assert (Hx : Py.Num.to_float (Py.Num.PInt 0) = Ok 0%float) by (vm_compute; reflexivity).
  assert (Hs : Py.Num.to_float (Py.Num.PFloat 1) = Ok 1%float) by reflexivity.
  destruct (py_swipe_negative_steps_do_not_interpolate Py.rounding_pow
              Py.TouchActions.init (Py.Num.PInt 0) (Py.Num.PInt 0) (Py.Num.PInt 100)
              (Py.Num.PInt 0) None (Py.Num.PFloat 0.25) (Py.Num.PFloat 1)
              (Py.Num.PInt (-10)) (Py.Num.PFloat 0.25) true (-10)%Z
              0%float 0%float 1%float Hsteps Hneg Hx Hx Hs)
    as (dx & dy & after & Hdx & Hdy & Hrun & Hdata).
  exists after. split; [exact Hrun |].
  vm_compute in Hdx, Hdy. injection Hdx as <-. injection Hdy as <-.
  rewrite Hdata. vm_compute. reflexivity.
Defined.

(** X16. In a timed legacy [swipe] with [steps >= 1] that returns, the last
    intermediate move and the terminal move are the same record: both are
    computed as [(from_x + steps * dx, from_y + steps * dy)], so the landing
    point is emitted twice, at positions [2 + 2 * (steps - 1)] and
    [2 + 2 * steps] of the appended segment. *)
Theorem py_swipe_landing_move_is_repeated
    (libm_pow : float -> float -> float * Py.Num.errno)
    (self : Py.TouchActions.t) (from_x from_y to_x to_y : Py.Num.num)
    (element_uid : option string)
    (press_seconds swipe_seconds delta hold_seconds : Py.Num.num)
    (do_up : bool) (steps : Z) (fx fy seconds : float) :
  Py.TouchActions.swipe_steps libm_pow from_x from_y to_x to_y delta = Ok steps ->
  (1 <= steps)%Z ->
  Py.Num.to_float from_x = Ok fx ->
  Py.Num.to_float from_y = Ok fy ->
  Py.Num.to_float swipe_seconds = Ok seconds ->
  exists dx dy after,
    Py.TouchActions.swipe_increment from_x to_x steps = Ok dx /\
    Py.TouchActions.swipe_increment from_y to_y steps = Ok dy /\
    Py.TouchActions.swipe libm_pow self from_x from_y to_x to_y element_uid
      press_seconds (Some swipe_seconds) delta hold_seconds do_up =
      Py.TouchActions.Returned after /\
    Py.TouchActions.data after
      !! (length (Py.TouchActions.data self) + 2 + 2 * Z.to_nat (steps - 1)) =
      Some (Py.Shape.moveTo
              (Py.Num.PFloat (fx + Py.Num.nearest_float steps * dx))
              (Py.Num.PFloat (fy + Py.Num.nearest_float steps * dy))
              element_uid) /\
    Py.TouchActions.data after
      !! (length (Py.TouchActions.data self) + 2 + 2 * Z.to_nat steps) =
      Some (Py.Shape.moveTo
              (Py.Num.PFloat (fx + Py.Num.nearest_float steps * dx))
              (Py.Num.PFloat (fy + Py.Num.nearest_float steps * dy))
              element_uid).
Proof.
  intros Hsteps Hge Hx Hy Hseconds.
  destruct (py_swipe_interpolated libm_pow self from_x from_y to_x to_y element_uid
              press_seconds swipe_seconds delta hold_seconds do_up steps fx fy seconds
              Hsteps ltac:(lia) Hx Hy Hseconds)
    as (dx & dy & interval & after & Hdx & Hdy & _ & Hrun & Hdata).
  exists dx, dy, after. split; [exact Hdx |]. split; [exact Hdy |].
  split; [exact Hrun |]. rewrite Hdata. split.
  - apply (interpolated_segment_lookup (Py.TouchActions.data self) _ _
             (fun i => Py.Shape.moveTo
                         (Py.Num.PFloat (fx + Py.Num.nearest_float i * dx))
                         (Py.Num.PFloat (fy + Py.Num.nearest_float i * dy))
                         element_uid)
             (fun _ => Py.Shape.wait (Py.pause_ms (Py.Num.PFloat interval)))
             steps _ steps). lia.
  - rewrite lookup_app_r by lia.
    replace (length (Py.TouchActions.data self) + 2 + 2 * Z.to_nat steps
             - length (Py.TouchActions.data self)) with (2 + 2 * Z.to_nat steps) by lia.
    cbn [app]. change ((?a :: ?b :: ?l) !! (2 + ?k)) with (l !! k).
    match goal with
    | |- (flat_map ?h ?r ++ _) !! _ = _ =>
        assert (Hlen : length (flat_map h r) = 2 * Z.to_nat steps)
          by (rewrite (interpolation_length _ _ r), length_seqZ; reflexivity)
    end.
    rewrite lookup_app_r by lia. rewrite Hlen, Nat.sub_diag. reflexivity.
Qed.

Lemma py_swipe_landing_move_is_repeated_witness :
  exists after,
    Py.TouchActions.swipe Py.rounding_pow Py.TouchActions.init
      (Py.Num.PInt 0) (Py.Num.PInt 0) (Py.Num.PInt 111) (Py.Num.PInt 0) None
      (Py.Num.PFloat 0.25) (Some (Py.Num.PFloat 1)) (Py.Num.PInt 10)
      (Py.Num.PFloat 0.25) true = Py.TouchActions.Returned after /\
    Py.TouchActions.data after !! 22 =
      Some (Py.Shape.moveTo (Py.Num.PFloat 0x1.bc00000000001p+6) (Py.Num.PFloat 0) None) /\
    Py.TouchActions.data after !! 24 =
      Some (Py.Shape.moveTo (Py.Num.PFloat 0x1.bc00000000001p+6) (Py.Num.PFloat 0) None).
Proof.
  assert (Hsteps :
    Py.TouchActions.swipe_steps Py.rounding_pow (Py.Num.PInt 0) (Py.Num.PInt 0)
      (Py.Num.PInt 111) (Py.Num.PInt 0) (Py.Num.PInt 10) = Ok 11%Z)
    by (vm_compute; reflexivity).
  assert (Hge : (1 <= 11)%Z) by lia.
  assert (Hx : Py.Num.to_float (Py.Num.PInt 0) = Ok 0%float) by (vm_compute; reflexivity).
  assert (Hs : Py.Num.to_float (Py.Num.PFloat 1) = Ok 1%float) by reflexivity.
  destruct (py_swipe_landing_move_is_repeated Py.rounding_pow
              Py.TouchActions.init (Py.Num.PInt 0) (Py.Num.PInt 0) (Py.Num.PInt 111)
              (Py.Num.PInt 0) None (Py.Num.PFloat 0.25) (Py.Num.PFloat 1)
              (Py.Num.PInt 10) (Py.Num.PFloat 0.25) true 11%Z
              0%float 0%float 1%float Hsteps Hge Hx Hx Hs)
    as (dx & dy & after & Hdx & Hdy & Hrun & Hlast & Hterminal).
  exists after. split; [exact Hrun |].
  vm_compute in Hdx, Hdy. injection Hdx as <-. injection Hdy as <-.
  split; [exact Hlast | exact Hterminal].
Defined.

(** X17. A timed legacy [swipe] with a non-zero step count whose [from_x],
    [from_y] and [swipe_seconds] fit a double appends
    [4 + 2 * max(steps, 0)] primitives, and one more when [up] is true. *)
Theorem py_swipe_segment_length
    (libm_pow : float -> float -> float * Py.Num.errno)
    (self : Py.TouchActions.t) (from_x from_y to_x to_y : Py.Num.num)
    (element_uid : option string)
    (press_seconds swipe_seconds delta hold_seconds : Py.Num.num)
    (do_up : bool) (steps : Z) (fx fy seconds : float) :
  Py.TouchActions.swipe_steps libm_pow from_x from_y to_x to_y delta = Ok steps ->
  steps <> 0%Z ->
  Py.Num.to_float from_x = Ok fx ->
  Py.Num.to_float from_y = Ok fy ->
  Py.Num.to_float swipe_seconds = Ok seconds ->
  exists after,
    Py.TouchActions.swipe libm_pow self from_x from_y to_x to_y element_uid
      press_seconds (Some swipe_seconds) delta hold_seconds do_up =
      Py.TouchActions.Returned after /\
    length (Py.TouchActions.data after) =
      length (Py.TouchActions.data self) + 4 + 2 * Z.to_nat steps +
      (if do_up then 1 else 0).
Proof.
  intros Hsteps Hnz Hx Hy Hseconds.
  destruct (py_swipe_interpolated libm_pow self from_x from_y to_x to_y element_uid
              press_seconds swipe_seconds delta hold_seconds do_up steps fx fy seconds
              Hsteps Hnz Hx Hy Hseconds)
    as (dx & dy & interval & after & _ & _ & _ & Hrun & Hdata).
  exists after. split; [exact Hrun |].
  rewrite Hdata, !length_app.
  match goal with
  | |- context [length (flat_map ?h ?r)] =>
      rewrite (interpolation_length _ _ r : length (flat_map h r) = _)
  end.
  rewrite length_seqZ. destruct do_up; cbn [length]; lia.
Qed.

Lemma py_swipe_segment_length_witness :
  exists after,
    Py.TouchActions.swipe Py.rounding_pow Py.TouchActions.init
      (Py.Num.PInt 0) (Py.Num.PInt 0) (Py.Num.PInt 1) (Py.Num.PInt 0) None
      (Py.Num.PFloat 0.25) (Some (Py.Num.PInt 1)) (Py.Num.PFloat 0x1.999999999999ap-4)
      (Py.Num.PFloat 0.25) true = Py.TouchActions.Returned after /\
    length (Py.TouchActions.data after) = 25.
Proof.
  assert (Hsteps :
    Py.TouchActions.swipe_steps Py.rounding_pow (Py.Num.PInt 0) (Py.Num.PInt 0)
      (Py.Num.PInt 1) (Py.Num.PInt 0) (Py.Num.PFloat 0x1.999999999999ap-4) = Ok 10%Z)
    by (vm_compute; reflexivity).
  assert (Hnz : 10%Z <> 0%Z) by discriminate.
  assert (Hx : Py.Num.to_float (Py.Num.PInt 0) = Ok 0%float) by (vm_compute; reflexivity).
  assert (Hs : Py.Num.to_float (Py.Num.PInt 1) = Ok 1%float) by (vm_compute; reflexivity).
  exact (py_swipe_segment_length Py.rounding_pow Py.TouchActions.init
           (Py.Num.PInt 0) (Py.Num.PInt 0) (Py.Num.PInt 1) (Py.Num.PInt 0) None
           (Py.Num.PFloat 0.25) (Py.Num.PInt 1) (Py.Num.PFloat 0x1.999999999999ap-4)
           (Py.Num.PFloat 0.25) true 10%Z 0%float 0%float 1%float
           Hsteps Hnz Hx Hx Hs).
Defined.
